(** * olga_bot: the [Database] access layer of [sql.py]

    A shallow embedding of the connection-pooled database component and of the
    statements it sends, with the properties its specification states and
    further properties of its methods, one by one and as a class.

    Modelling conventions.
    - A table is the list of its rows in insertion order; a row is a record
      with one field per column of the [CREATE TABLE] statement, [None] for SQL
      [NULL].  The tables are assumed to exist (the [create_table_*] methods
      have run at startup).
    - SQL integers ([INT], [BIGINT], [SERIAL]) are unbounded [Z]: the width of
      a column, the exhaustion of a sequence and the loss of the connection
      are limits of the server and are not modelled.  [REAL] is modelled: it
      is the single-precision value a Python [float] is rounded to when it is
      stored.
    - A Python [str] is a [string] of ASCII characters; [int] reads a digit
      string of any length (the interpreter's cap on the number of digits is
      not modelled).
    - A method of [Database] is a state transformer over the object and the
      server it talks to; its outcome is a returned value, a raised exception,
      or a call that never resumes.  Calls are taken one after the other:
      every statement runs in a transaction of its own, so a history of
      concurrent callers is read as some sequence of calls.  The pool, once
      open, stays open: [__aexit__] is outside the model.
    - [asyncpg.create_pool] is taken to succeed: the server is there and the
      bounds of the object are ones the library accepts. *)

From Stdlib Require Import ZArith String Ascii List Lia Bool.
From Stdlib Require Import DecimalString DecimalZ.
From Stdlib Require Import Floats.SpecFloat.
From stdpp Require Import base option list gmap strings sorting.

Local Open Scope string_scope.
Local Open Scope list_scope.

(** ** Python values *)

(** The exceptions the methods can raise: those of the interpreter and those
    asyncpg derives from the server's error codes. *)
Inductive exn : Set :=
  | IndexError
  | ValueError
  | TypeError
  | AttributeError
  | OverflowError
  | DataError
  | UniqueViolationError
  | NotNullViolationError
  | TimeoutError.

(** The result of an expression that may raise. *)
Inductive result (A : Type) : Type :=
  | Ok (a : A)
  | Err (e : exn).
Arguments Ok {A} a.
Arguments Err {A} e.

#[global] Instance result_ret : MRet result := fun A a => Ok a.
#[global] Instance result_bind : MBind result := fun A B f r =>
  match r with Ok a => f a | Err e => Err e end.
#[global] Instance result_fmap : FMap result := fun A B f r =>
  match r with Ok a => Ok (f a) | Err e => Err e end.

(** [None] read as the exception [e]. *)
Definition or_raise {A} (e : exn) (o : option A) : result A :=
  match o with Some a => Ok a | None => Err e end.

(** A [datetime.datetime] without time zone. *)
Record datetime : Set := mk_datetime {
  dt_year : Z; dt_month : Z; dt_day : Z;
  dt_hour : Z; dt_minute : Z; dt_second : Z; dt_microsecond : Z
}.

(** A Python [float]: an IEEE 754 double, in the canonical form of
    [SpecFloat] for precision 53. *)
Definition pyfloat : Set := spec_float.

(** The values a product dictionary decoded from JSON holds. *)
Inductive pyval : Set :=
  | PyNone
  | PyInt (z : Z)
  | PyFloat (f : pyfloat)
  | PyStr (s : string).

(** [str.split(sep)] for a one-character separator. *)
Fixpoint split (sep : ascii) (s : string) : list string :=
  match s with
  | EmptyString => [EmptyString]
  | String c s' =>
      if Ascii.eqb c sep then EmptyString :: split sep s'
      else match split sep s' with
           | [] => [String c EmptyString]
           | h :: t => String c h :: t
           end
  end.

(** [c in s] for a character. *)
Fixpoint occurs (c : ascii) (s : string) : bool :=
  match s with
  | EmptyString => false
  | String c' s' => Ascii.eqb c' c || occurs c s'
  end.

(** The characters [int()] skips at both ends of a [str]. *)
Definition is_space (c : ascii) : bool :=
  let n := nat_of_ascii c in
  (((9 <=? n) && (n <=? 13)) || ((28 <=? n) && (n <=? 32)))%nat.

Definition is_digit (c : ascii) : bool :=
  let n := nat_of_ascii c in ((48 <=? n) && (n <=? 57))%nat.


Fixpoint lstrip (s : string) : string :=
  match s with
  | String c s' => if is_space c then lstrip s' else s
  | EmptyString => EmptyString
  end.

Fixpoint rstrip (s : string) : string :=
  match s with
  | EmptyString => EmptyString
  | String c s' =>
      match rstrip s' with
      | EmptyString => if is_space c then EmptyString else String c EmptyString
      | r => String c r
      end
  end.

(** Digits with single underscores between them, the underscores dropped:
    [prev] tells whether the previous character was a digit. *)
Fixpoint digits_of (prev : bool) (s : string) : option string :=
  match s with
  | EmptyString => if prev then Some EmptyString else None
  | String c s' =>
      if is_digit c then String c <$> digits_of true s'
      else if Ascii.eqb c "_" then
        (if prev then
           match s' with
           | String d _ => if is_digit d then digits_of false s' else None
           | EmptyString => None
           end
         else None)
      else None
  end.

Definition unsigned_of (s : string) : option Z :=
  match s with
  | EmptyString => None
  | _ => d ← digits_of false s; Z.of_uint <$> NilEmpty.uint_of_string d
  end.

(** [int(s)] for a [str] in base ten: white space stripped, an optional sign,
    then digits; [None] where Python raises [ValueError]. *)
Definition py_int (s : string) : option Z :=
  match rstrip (lstrip s) with
  | EmptyString => None
  | String c r =>
      if Ascii.eqb c "-" then Z.opp <$> unsigned_of r
      else if Ascii.eqb c "+" then unsigned_of r
      else unsigned_of (String c r)
  end.

(** [str(n)] for an [int]. *)
Definition py_str (z : Z) : string := NilZero.string_of_int (Z.to_int z).

(** [bool(x)] for the value of a nullable integer column. *)
Definition py_bool_int (x : option Z) : bool :=
  match x with
  | None => false
  | Some z => negb (z =? 0)%Z
  end.

(** ** Floating point: Python's double and the server's [REAL] *)

(** The value of a [REAL] column: a single-precision float. *)
Definition real : Set := spec_float.

(** asyncpg's encoder of a [float] argument for a [REAL] parameter: the C
    cast to [float], refused when a finite double overflows. *)
Definition float4_encode (x : pyfloat) : result real :=
  match x with
  | S754_finite s m e =>
      match binary_normalize 24 128 (cond_Zopp s (Zpos m)) e s with
      | S754_infinity _ => Err DataError
      | r => Ok r
      end
  | _ => Ok x
  end.

(** The decoder of a [REAL] result: the same number as a double. *)
Definition float4_decode (r : real) : pyfloat :=
  match r with
  | S754_finite s m e => binary_normalize 53 1024 (cond_Zopp s (Zpos m)) e s
  | _ => r
  end.

(** [float(n)] for an [int]: the nearest double, [OverflowError] beyond. *)
Definition float_of_int (z : Z) : result pyfloat :=
  match binary_normalize 53 1024 z 0 false with
  | S754_infinity _ => Err OverflowError
  | r => Ok r
  end.

(** ** The tables

    One record per table of the schema, one field per column. *)

(** [users (id SERIAL PRIMARY KEY, user_id BIGINT UNIQUE, username TEXT,
    full_name TEXT, b24_id INT, im_link_b24 TEXT, lead_id INT)] *)
Record user_row : Set := mk_user {
  u_id : Z;
  u_user_id : option Z;
  u_username : option string;
  u_full_name : option string;
  u_b24_id : option Z;
  u_im_link_b24 : option string;
  u_lead_id : option Z
}.

(** [deals (id SERIAL PRIMARY KEY, user_id BIGINT, deal_id INT, product_id INT,
    opportunity REAL, paid BOOLEAN DEFAULT FALSE, create_time TIMESTAMP)] *)
Record deal_row : Set := mk_deal {
  d_id : Z;
  d_user_id : option Z;
  d_deal_id : option Z;
  d_product_id : option Z;
  d_opportunity : option real;
  d_paid : option bool;
  d_create_time : option datetime
}.

(** [admin_messages (id SERIAL PRIMARY KEY, start_message TEXT)] *)
Record admin_message_row : Set := mk_admin_message {
  am_id : Z;
  am_start_message : option string
}.

(** [buttons_stat (id SERIAL PRIMARY KEY, user_id BIGINT, button_name TEXT,
    count INT, UNIQUE (user_id, button_name))] *)
Record button_stat_row : Set := mk_button_stat {
  bs_id : Z;
  bs_user_id : option Z;
  bs_button_name : option string;
  bs_count : option Z
}.

(** [products (id INT PRIMARY KEY, name TEXT, active_from TIMESTAMP,
    active_to TIMESTAMP, price REAL, currency_id TEXT, description TEXT)] *)
Record product_row : Set := mk_product {
  p_id : Z;
  p_name : option string;
  p_active_from : option datetime;
  p_active_to : option datetime;
  p_price : option real;
  p_currency_id : option string;
  p_description : option string
}.

(** [payments (id SERIAL PRIMARY KEY, user_id BIGINT, currency TEXT,
    total_amount INT, product_id INT, deal_id INT,
    telegram_payment_charge_id TEXT, provider_payment_charge_id TEXT)] *)
Record payment_row : Set := mk_payment {
  pay_id : Z;
  pay_user_id : option Z;
  pay_currency : option string;
  pay_total_amount : option Z;
  pay_product_id : option Z;
  pay_deal_id : option Z;
  pay_telegram_payment_charge_id : option string;
  pay_provider_payment_charge_id : option string
}.

(** The content of the database: the six tables and, for each [SERIAL]
    column, the last value its sequence gave out. *)
Record Tables : Set := mk_tables {
  users : list user_row;
  users_id_seq : Z;
  deals : list deal_row;
  deals_id_seq : Z;
  admin_messages : list admin_message_row;
  admin_messages_id_seq : Z;
  buttons_stat : list button_stat_row;
  buttons_stat_id_seq : Z;
  products : list product_row;
  payments : list payment_row;
  payments_id_seq : Z
}.

Definition empty_tables : Tables := mk_tables [] 0 [] 0 [] 0 [] 0 [] [] 0.

Definition set_users (l : list user_row) (s : Z) (t : Tables) : Tables :=
  mk_tables l s (deals t) (deals_id_seq t) (admin_messages t)
    (admin_messages_id_seq t) (buttons_stat t) (buttons_stat_id_seq t)
    (products t) (payments t) (payments_id_seq t).

Definition set_deals (l : list deal_row) (s : Z) (t : Tables) : Tables :=
  mk_tables (users t) (users_id_seq t) l s (admin_messages t)
    (admin_messages_id_seq t) (buttons_stat t) (buttons_stat_id_seq t)
    (products t) (payments t) (payments_id_seq t).

Definition set_admin_messages (l : list admin_message_row) (t : Tables) : Tables :=
  mk_tables (users t) (users_id_seq t) (deals t) (deals_id_seq t) l
    (admin_messages_id_seq t) (buttons_stat t) (buttons_stat_id_seq t)
    (products t) (payments t) (payments_id_seq t).

Definition set_buttons_stat (l : list button_stat_row) (s : Z) (t : Tables) : Tables :=
  mk_tables (users t) (users_id_seq t) (deals t) (deals_id_seq t)
    (admin_messages t) (admin_messages_id_seq t) l s
    (products t) (payments t) (payments_id_seq t).

Definition set_products (l : list product_row) (t : Tables) : Tables :=
  mk_tables (users t) (users_id_seq t) (deals t) (deals_id_seq t)
    (admin_messages t) (admin_messages_id_seq t) (buttons_stat t)
    (buttons_stat_id_seq t) l (payments t) (payments_id_seq t).

Definition set_payments (l : list payment_row) (s : Z) (t : Tables) : Tables :=
  mk_tables (users t) (users_id_seq t) (deals t) (deals_id_seq t)
    (admin_messages t) (admin_messages_id_seq t) (buttons_stat t)
    (buttons_stat_id_seq t) (products t) l s.

(** ** The statements

    A query sent through [select] denotes a function from the tables to the
    rows it returns; a statement sent through [update] denotes a function to
    the exception it raises, if any, and the tables it leaves.  A statement
    that fails is rolled back by its transaction, except for the value it took
    from a sequence. *)

Definition query (R : Type) : Type := Tables -> list R.
Definition statement : Type := Tables -> option exn * Tables.

(** asyncpg's encoders of an argument for an integer and for a text
    parameter. *)
Definition int_encode (v : pyval) : result (option Z) :=
  match v with
  | PyNone => Ok None
  | PyInt z => Ok (Some z)
  | _ => Err DataError
  end.

Definition text_encode (v : pyval) : result (option string) :=
  match v with
  | PyNone => Ok None
  | PyStr s => Ok (Some s)
  | _ => Err DataError
  end.

(** [CREATE TABLE IF NOT EXISTS ...] on a table that exists. *)
Definition sql_create_table : statement := fun t => (None, t).

(** [INSERT INTO users (user_id, username, full_name) VALUES ($1, $2, $3)] *)
Definition sql_insert_user (user_id : Z) (username : option string)
    (full_name : string) : statement := fun t =>
  let id := (users_id_seq t + 1)%Z in
  if bool_decide (Exists (fun r => u_user_id r = Some user_id) (users t))
  then (Some UniqueViolationError, set_users (users t) id t)
  else (None,
        set_users (users t ++ [mk_user id (Some user_id) username
                                 (Some full_name) None None None]) id t).

(** [SELECT * FROM users WHERE user_id = $1;] *)
Definition sql_select_user (user_id : Z) : query user_row := fun t =>
  filter (fun r => u_user_id r = Some user_id) (users t).

(** [SELECT b24_id FROM users WHERE user_id = $1;] *)
Definition sql_select_b24_id (user_id : Z) : query (option Z) := fun t =>
  u_b24_id <$> filter (fun r => u_user_id r = Some user_id) (users t).

(** [UPDATE users SET im_link_b24 = $2 WHERE user_id = $1;] *)
Definition sql_set_iml (user_id : Z) (iml : string) : statement := fun t =>
  (None,
   set_users ((fun r => if bool_decide (u_user_id r = Some user_id)
                        then mk_user (u_id r) (u_user_id r) (u_username r)
                               (u_full_name r) (u_b24_id r) (Some iml) (u_lead_id r)
                        else r) <$> users t) (users_id_seq t) t).

(** [UPDATE users SET b24_id = $2 WHERE user_id = $1;] *)
Definition sql_set_b24_id (user_id b24_id : Z) : statement := fun t =>
  (None,
   set_users ((fun r => if bool_decide (u_user_id r = Some user_id)
                        then mk_user (u_id r) (u_user_id r) (u_username r)
                               (u_full_name r) (Some b24_id) (u_im_link_b24 r)
                               (u_lead_id r)
                        else r) <$> users t) (users_id_seq t) t).

(** [UPDATE users SET lead_id = $2 WHERE user_id = $1;] *)
Definition sql_set_lead_id (user_id lead_id : Z) : statement := fun t =>
  (None,
   set_users ((fun r => if bool_decide (u_user_id r = Some user_id)
                        then mk_user (u_id r) (u_user_id r) (u_username r)
                               (u_full_name r) (u_b24_id r) (u_im_link_b24 r)
                               (Some lead_id)
                        else r) <$> users t) (users_id_seq t) t).

(** [INSERT INTO deals (user_id, deal_id, product_id, opportunity, create_time)
    VALUES ($1, $2, $3, $4, $5);] with [paid] left to its default. *)
Definition sql_insert_deal (user_id deal_id product_id : Z)
    (opportunity : pyfloat) (time_now : datetime) : statement := fun t =>
  match float4_encode opportunity with
  | Err e => (Some e, t)
  | Ok o =>
      let id := (deals_id_seq t + 1)%Z in
      (None,
       set_deals (deals t ++ [mk_deal id (Some user_id) (Some deal_id)
                                (Some product_id) (Some o) (Some false)
                                (Some time_now)]) id t)
  end.

(** [SELECT * FROM deals WHERE user_id = $1;] *)
Definition sql_select_deals (user_id : Z) : query deal_row := fun t =>
  filter (fun r => d_user_id r = Some user_id) (deals t).

(** [SELECT * FROM deals WHERE user_id = $1 AND product_id = $2 AND
    paid = FALSE;] *)
Definition sql_select_unpaid_deal (user_id product_id : Z) : query deal_row :=
  fun t =>
  filter (fun r => d_user_id r = Some user_id /\ d_product_id r = Some product_id
                   /\ d_paid r = Some false) (deals t).

(** The row [UPDATE deals SET paid = True] writes over [r]. *)
Definition mark_paid (r : deal_row) : deal_row :=
  mk_deal (d_id r) (d_user_id r) (d_deal_id r) (d_product_id r)
    (d_opportunity r) (Some true) (d_create_time r).

(** [UPDATE deals SET paid = True WHERE deal_id = $1;] *)
Definition sql_set_paid (deal_id : Z) : statement := fun t =>
  (None,
   set_deals ((fun r => if bool_decide (d_deal_id r = Some deal_id)
                        then mark_paid r else r) <$> deals t)
     (deals_id_seq t) t).

(** [SELECT start_message FROM admin_messages;] *)
Definition sql_select_start_message : query (option string) := fun t =>
  am_start_message <$> admin_messages t.

(** [UPDATE admin_messages SET start_message = $1;] *)
Definition sql_set_start_message (start_message : string) : statement := fun t =>
  (None,
   set_admin_messages ((fun r => mk_admin_message (am_id r) (Some start_message))
                         <$> admin_messages t) t).

(** The row the upsert's [DO UPDATE SET count = buttons_stat.count + 1]
    writes over [r]; [NULL + 1] is [NULL]. *)
Definition bump (r : button_stat_row) : button_stat_row :=
  mk_button_stat (bs_id r) (bs_user_id r) (bs_button_name r)
    ((fun c => c + 1)%Z <$> bs_count r).

(** The rows that conflict with a proposed [(user_id, button_name)]. *)
Definition same_button (user_id : Z) (button_name : string)
    (r : button_stat_row) : Prop :=
  bs_user_id r = Some user_id /\ bs_button_name r = Some button_name.

#[global] Instance same_button_dec u b r : Decision (same_button u b r).
Proof. unfold same_button. apply _. Defined.

(** [INSERT INTO buttons_stat (user_id, button_name, count) VALUES ($1, $2, 1)
    ON CONFLICT (user_id, button_name) DO UPDATE SET count =
    buttons_stat.count + 1 WHERE buttons_stat.user_id = $1 AND
    buttons_stat.button_name = $2;]
    The proposed row takes a value of the sequence whether or not it is
    inserted; the [WHERE] of the update holds of every conflicting row. *)
Definition sql_upsert_button (user_id : Z) (button_name : string) : statement :=
  fun t =>
  let id := (buttons_stat_id_seq t + 1)%Z in
  if bool_decide (Exists (same_button user_id button_name) (buttons_stat t))
  then (None,
        set_buttons_stat
          ((fun r => if bool_decide (same_button user_id button_name r)
                     then bump r else r) <$> buttons_stat t) id t)
  else (None,
        set_buttons_stat
          (buttons_stat t ++ [mk_button_stat id (Some user_id)
                                (Some button_name) (Some 1%Z)]) id t).

(** [SELECT * FROM buttons_stat WHERE user_id = $1 ...], before its
    [ORDER BY]. *)
Definition sql_select_button_stat (user_id : Z) : query button_stat_row :=
  fun t => filter (fun r => bs_user_id r = Some user_id) (buttons_stat t).

(** The order of [ORDER BY count DESC]: the larger count first, [NULL] before
    every number. *)
Definition count_desc (r r' : button_stat_row) : Prop :=
  match bs_count r, bs_count r' with
  | None, _ => True
  | Some _, None => False
  | Some c, Some c' => (c' <= c)%Z
  end.

#[global] Instance count_desc_dec r r' : Decision (count_desc r r').
Proof. unfold count_desc. destruct (bs_count r), (bs_count r'); apply _. Defined.

(** [TRUNCATE TABLE products;] *)
Definition sql_truncate_products : statement := fun t =>
  (None, set_products [] t).

(** [INSERT INTO products (id, name, active_from, active_to, price,
    currency_id, description) VALUES ($1, ..., $7);] with the arguments as
    Python passes them: the primary key refuses [NULL] and a value it holds. *)
Definition sql_insert_product (product_id name : pyval)
    (active_from active_to : datetime) (price : pyfloat)
    (currency_id description : pyval) : statement := fun t =>
  match
    id ← int_encode product_id;
    n ← text_encode name;
    p ← float4_encode price;
    c ← text_encode currency_id;
    d ← text_encode description;
    mret (id, n, p, c, d)
  with
  | Err e => (Some e, t)
  | Ok (None, _, _, _, _) => (Some NotNullViolationError, t)
  | Ok (Some id, n, p, c, d) =>
      if bool_decide (Exists (fun r => p_id r = id) (products t))
      then (Some UniqueViolationError, t)
      else (None,
            set_products (products t ++ [mk_product id n (Some active_from)
                                           (Some active_to) (Some p) c d]) t)
  end.

(** [SELECT * FROM products;] *)
Definition sql_select_products : query product_row := fun t => products t.

(** [SELECT * FROM products WHERE id = $1;] *)
Definition sql_select_product (product_id : Z) : query product_row := fun t =>
  filter (fun r => p_id r = product_id) (products t).

(** [INSERT INTO payments (user_id, currency, total_amount, product_id,
    deal_id, telegram_payment_charge_id, provider_payment_charge_id)
    VALUES ($1, ..., $7);] *)
Definition sql_insert_payment (user_id : Z) (currency : string)
    (total_amount product_id deal_id : Z)
    (telegram_payment_charge_id provider_payment_charge_id : string) : statement :=
  fun t =>
  let id := (payments_id_seq t + 1)%Z in
  (None,
   set_payments (payments t ++ [mk_payment id (Some user_id) (Some currency)
                                  (Some total_amount) (Some product_id)
                                  (Some deal_id)
                                  (Some telegram_payment_charge_id)
                                  (Some provider_payment_charge_id)]) id t).

(** ** The [Database] object, the pool and the server *)

(** The keyword arguments of [asyncpg.create_pool]. *)
Record PoolConfig : Set := mk_pool_config {
  cp_dsn : string;
  cp_min_size : Z;
  cp_max_size : Z;
  cp_max_queries : Z;
  cp_max_inactive_connection_lifetime : Z
}.

(** The attributes of a [Database]; [pool] names the pool it holds by the
    order in which the server saw the pools open. *)
Record Database : Set := mk_database {
  dsn : string;
  pool : option nat;
  min_size : Z;
  max_size : Z;
  max_queries : Z;
  timeout : Z
}.

(** [Database.__init__], the connection string read from the configuration. *)
Definition Database_init (config_dsn : string)
    (min_size max_size max_queries timeout : Z) : Database :=
  mk_database config_dsn None min_size max_size max_queries timeout.

(** [Database()] with the default arguments. *)
Definition Database_default (config_dsn : string) : Database :=
  Database_init config_dsn 10 500 500 30.

(** What the object talks to: the tables, the pools opened so far, the time in
    seconds until the pool can hand out a connection ([Some 0] when one is
    idle, [None] when every connection is held for ever), and the clock
    [datetime.now()] reads. *)
Record Server : Set := mk_server {
  tables : Tables;
  pools : list PoolConfig;
  free_in : option nat;
  now : datetime
}.

Record State : Set := mk_state {
  self : Database;
  server : Server
}.

Definition set_pool (p : option nat) (db : Database) : Database :=
  mk_database (dsn db) p (min_size db) (max_size db) (max_queries db) (timeout db).

Definition set_timeout (t : Z) (db : Database) : Database :=
  mk_database (dsn db) (pool db) (min_size db) (max_size db) (max_queries db) t.

Definition set_tables (t : Tables) (s : Server) : Server :=
  mk_server t (pools s) (free_in s) (now s).

Definition set_pools (l : list PoolConfig) (s : Server) : Server :=
  mk_server (tables s) l (free_in s) (now s).

(** How an awaited call ends: it returns, it raises, or it never resumes. *)
Inductive outcome (A : Type) : Type :=
  | Returned (a : A)
  | Raised (e : exn)
  | Blocked.
Arguments Returned {A} a.
Arguments Raised {A} e.
Arguments Blocked {A}.

(** A coroutine of the class: from the state before to the outcome and the
    state after. *)
Definition M (A : Type) : Type := State -> outcome A * State.

Definition ret {A} (a : A) : M A := fun st => (Returned a, st).

Definition bind {A B} (m : M A) (f : A -> M B) : M B := fun st =>
  match m st with
  | (Returned a, st') => f a st'
  | (Raised e, st') => (Raised e, st')
  | (Blocked, st') => (Blocked, st')
  end.

Notation "'let*' x ':=' m 'in' k" := (bind m (fun x => k))
  (at level 10, x pattern, m at level 100, k at level 200).
Notation "m ';;' k" := (bind m (fun _ => k))
  (at level 100, k at level 200, right associativity).

Definition raise {A} (e : exn) : M A := fun st => (Raised e, st).

Definition lift {A} (r : result A) : M A :=
  match r with Ok a => ret a | Err e => raise e end.

(** [asyncpg.create_pool(...)]: the server opens one more pool. *)
Definition create_pool (cfg : PoolConfig) : M nat := fun st =>
  (Returned (length (pools (server st))),
   mk_state (self st) (set_pools (pools (server st) ++ [cfg]) (server st))).

(** [Pool.acquire(timeout=...)]: with no timeout the caller waits until a
    connection is free, however long; with one, it gets [TimeoutError] when
    none is free in time. *)
Definition pool_acquire (timeout : option nat) : M unit := fun st =>
  match pool (self st) with
  | None => (Raised AttributeError, st)
  | Some _ =>
      match free_in (server st), timeout with
      | Some _, None => (Returned tt, st)
      | Some d, Some t => if (d <=? t)%nat then (Returned tt, st)
                          else (Raised TimeoutError, st)
      | None, Some _ => (Raised TimeoutError, st)
      | None, None => (Blocked, st)
      end
  end.

(** [conn.fetch(query, *args)] in a transaction. *)
Definition fetch {R} (q : query R) : M (list R) := fun st =>
  (Returned (q (tables (server st))), st).

(** [conn.execute(query, *args)] in a transaction. *)
Definition execute (s : statement) : M unit := fun st =>
  let '(e, t) := s (tables (server st)) in
  (match e with None => Returned tt | Some e => Raised e end,
   mk_state (self st) (set_tables t (server st))).

(** [datetime.now()] *)
Definition datetime_now : M datetime := fun st => (Returned (now (server st)), st).

(** Reading [self] and assigning [self.pool]. *)
Definition get_self : M Database := fun st => (Returned (self st), st).

Definition assign_pool (p : nat) : M unit := fun st =>
  (Returned tt, mk_state (set_pool (Some p) (self st)) (server st)).

(** [Database.connect] *)
Definition connect : M unit :=
  let* db := get_self in
  let* p := create_pool (mk_pool_config (dsn db) (min_size db) (max_size db)
                           (max_queries db) (timeout db)) in
  assign_pool p.

(** The guard [if self.pool is None: await self.connect()]. *)
Definition ensure_pool : M unit :=
  let* db := get_self in
  match pool db with
  | None => connect
  | Some _ => ret tt
  end.

(** [Database.select] *)
Definition select {R} (q : query R) : M (list R) :=
  ensure_pool ;; pool_acquire None ;; fetch q.

(** [Database.update] *)
Definition update (s : statement) : M unit :=
  ensure_pool ;; pool_acquire None ;; execute s.

(** [Database.__aenter__] *)
Definition aenter : M unit := connect.

(** ** Python expressions of the methods *)

(** [l[i]] *)
Definition getitem {A} (l : list A) (i : nat) : result A :=
  or_raise IndexError (l !! i).

(** [int(s)] *)
Definition int_of_str (s : string) : result Z := or_raise ValueError (py_int s).

(** [d.get(k)] on a dictionary. *)
Definition dict_get (d : gmap string pyval) (k : string) : pyval :=
  default PyNone (d !! k).

(** [v.split(sep)]: only a [str] has the method. *)
Definition py_split (sep : ascii) (v : pyval) : result (list string) :=
  match v with
  | PyStr s => Ok (split sep s)
  | _ => Err AttributeError
  end.

(** [bool(l)] for a list. *)
Definition py_bool_list {A} (l : list A) : bool :=
  match l with [] => false | _ => true end.

(** aiogram's [SuccessfulPayment], the fields [add_payment] reads. *)
Record SuccessfulPayment : Set := mk_successful_payment {
  currency : string;
  total_amount : Z;
  invoice_payload : string;
  telegram_payment_charge_id : string;
  provider_payment_charge_id : string
}.

(** ** Instances of the library functions, for the examples

    The methods below take [strptime] and [float] on a [str] from their
    context.  The two functions here agree with Python's on the inputs they
    accept and serve where a concrete run is shown. *)

Definition digit_value (c : ascii) : option Z :=
  if is_digit c then Some (Z.of_nat (nat_of_ascii c) - 48)%Z else None.

(** The number a string of exactly [n] digits writes. *)
Fixpoint fixed_digits (n : nat) (s : string) (acc : Z) : option (Z * string) :=
  match n with
  | O => Some (acc, s)
  | S n' =>
      match s with
      | String c s' => d ← digit_value c; fixed_digits n' s' (acc * 10 + d)%Z
      | EmptyString => None
      end
  end.

Definition expect (c : ascii) (s : string) : option string :=
  match s with
  | String c' s' => if Ascii.eqb c c' then Some s' else None
  | EmptyString => None
  end.

Definition days_in_month (y m : Z) : Z :=
  if (m =? 2)%Z then
    if ((y mod 4 =? 0) && (negb (y mod 100 =? 0) || (y mod 400 =? 0)))%Z
    then 29%Z else 28%Z
  else if ((m =? 4) || (m =? 6) || (m =? 9) || (m =? 11))%Z then 30%Z
  else 31%Z.

(** [datetime.strptime(s, '%Y-%m-%dT%H:%M:%S')] on a zero-padded timestamp
    such as [2024-01-31T09:30:00]. *)
Definition strptime_iso (s : string) : option datetime :=
  '(y, s) ← fixed_digits 4 s 0%Z;
  s ← expect "-" s;
  '(m, s) ← fixed_digits 2 s 0%Z;
  s ← expect "-" s;
  '(d, s) ← fixed_digits 2 s 0%Z;
  s ← expect "T" s;
  '(h, s) ← fixed_digits 2 s 0%Z;
  s ← expect ":" s;
  '(mi, s) ← fixed_digits 2 s 0%Z;
  s ← expect ":" s;
  '(sec, s) ← fixed_digits 2 s 0%Z;
  match s with
  | EmptyString =>
      if ((1 <=? y) && (1 <=? m) && (m <=? 12) && (1 <=? d)
          && (d <=? days_in_month y m) && (h <=? 23) && (mi <=? 59)
          && (sec <=? 59))%Z
      then Some (mk_datetime y m d h mi sec 0)
      else None
  | _ => None
  end.

Definition all_digits (s : string) : bool :=
  forallb is_digit (list_ascii_of_string s).

(** [float(s)] on a plain decimal of at most fifteen digits, such as
    [19.99]: the quotient of two integers a double holds exactly, rounded
    once. *)
Definition float_of_decimal (s : string) : option pyfloat :=
  match split "." s with
  | [i; f] =>
      if all_digits i && all_digits f
         && (1 <=? String.length i)%nat && (1 <=? String.length f)%nat
         && (String.length i + String.length f <=? 15)%nat
      then
        m ← Z.of_uint <$> NilEmpty.uint_of_string (i +:+ f);
        Some (SFdiv 53 1024 (binary_normalize 53 1024 m 0 false)
                (binary_normalize 53 1024 (10 ^ Z.of_nat (String.length f)) 0 false))
      else None
  | _ => None
  end.

(** An order the server may pick under [ORDER BY count DESC]: a merge sort,
    which leaves rows of equal count in the order of the table. *)
Definition sort_by_count_desc (l : list button_stat_row) : list button_stat_row :=
  merge_sort count_desc l.

(** A fresh object on a server with empty tables: one with an idle
    connection, one whose connections are held for ever. *)
Definition dsn_ex : string := "postgresql://bot@localhost/olga".
Definition noon : datetime := mk_datetime 2024 1 15 12 0 0 0.

Definition st_fresh : State :=
  mk_state (Database_default dsn_ex) (mk_server empty_tables [] (Some 0%nat) noon).

Definition st_exhausted : State :=
  mk_state (Database_default dsn_ex) (mk_server empty_tables [] None noon).

(** The state of the specification's scenario: user 42 and the deal 900 for
    product 7, amount 150.0, not yet paid. *)
Definition f_150 : pyfloat := S754_finite false 5277655813324800 (-45).
Definition r_150 : real := S754_finite false 9830400 (-16).

(** 19.99 as a double, and the double a [REAL] column gives back for it,
    19.989999771118164. *)
Definition f_19_99 : pyfloat := S754_finite false 5626684784446013 (-48).
Definition f_19_99_read : pyfloat := S754_finite false 5626684720021504 (-48).

Definition st_deal : State :=
  mk_state
    (mk_database dsn_ex (Some 0%nat) 10 500 500 30)
    (mk_server
       (set_deals
          [mk_deal 1 (Some 42%Z) (Some 900%Z) (Some 7%Z) (Some r_150)
             (Some false) (Some noon)] 1
          (set_users
             [mk_user 1 (Some 42%Z) (Some "alice") (Some "Alice A") None None None]
             1 empty_tables))
       [mk_pool_config dsn_ex 10 500 500 30] (Some 0%nat) noon).

(** A payment notification with the given invoice payload. *)
Definition payment_ex (payload : string) : SuccessfulPayment :=
  mk_successful_payment "PLN" 15000 payload "tg-charge-1" "provider-charge-1".

(** A product dictionary as the catalogue sends it. *)
Definition product_ex (id : Z) (name price : string) : gmap string pyval :=
  list_to_map
    [("id", PyInt id); ("name", PyStr name);
     ("dateActiveFrom", PyStr "2024-01-01T00:00:00+03:00");
     ("dateActiveTo", PyStr "2024-12-31T23:59:59+03:00");
     ("PRICE", PyStr price); ("CURRENCY_ID", PyStr "PLN");
     ("detailText", PyStr "Evening course")].

(** ** The methods of [Database] *)

Section Methods.

(** Two functions of Python's library are left to the context:
    [datetime.strptime(s, '%Y-%m-%dT%H:%M:%S')] and [float(s)] on a [str],
    [None] where they raise [ValueError]. *)
Variable strptime : string -> option datetime.
Variable float_of_str : string -> option pyfloat.

(** [float(v)] *)
Definition py_float (v : pyval) : result pyfloat :=
  match v with
  | PyNone => Err TypeError
  | PyInt z => float_of_int z
  | PyFloat f => Ok f
  | PyStr s => or_raise ValueError (float_of_str s)
  end.

(** [datetime.strptime(v.split('+')[0], '%Y-%m-%dT%H:%M:%S')] *)
Definition parse_timestamp (v : pyval) : result datetime :=
  parts ← py_split "+" v;
  s ← getitem parts 0;
  or_raise ValueError (strptime s).

Definition create_table_users : M unit := update sql_create_table.
Definition create_table_deals : M unit := update sql_create_table.
Definition create_table_admin_messages : M unit := update sql_create_table.
Definition create_table_buttons_stat : M unit := update sql_create_table.
Definition create_table_products : M unit := update sql_create_table.
Definition create_table_payments : M unit := update sql_create_table.

Definition add_new_deal (user_id deal_id product_id : Z) (opportunity : pyfloat)
    : M unit :=
  let* time_now := datetime_now in
  update (sql_insert_deal user_id deal_id product_id opportunity time_now).

Definition add_payment (user_id : Z) (payment_data : SuccessfulPayment) : M unit :=
  let currency := currency payment_data in
  let total_amount := total_amount payment_data in
  let* product_id :=
    lift (s ← getitem (split ":" (invoice_payload payment_data)) 0; int_of_str s) in
  let* deal_id :=
    lift (s ← getitem (split ":" (invoice_payload payment_data)) 1; int_of_str s) in
  let telegram_payment_charge_id := telegram_payment_charge_id payment_data in
  let provider_payment_charge_id := provider_payment_charge_id payment_data in
  update (sql_insert_payment user_id currency total_amount product_id deal_id
            telegram_payment_charge_id provider_payment_charge_id).

(** The body of the loop of [update_table_products]. *)
Definition insert_product (product : gmap string pyval) : M unit :=
  let product_id := dict_get product "id" in
  let name := dict_get product "name" in
  let* active_from := lift (parse_timestamp (dict_get product "dateActiveFrom")) in
  let* active_to := lift (parse_timestamp (dict_get product "dateActiveTo")) in
  let* price := lift (py_float (dict_get product "PRICE")) in
  let currency_id := dict_get product "CURRENCY_ID" in
  let description := dict_get product "detailText" in
  update (sql_insert_product product_id name active_from active_to price
            currency_id description).

Fixpoint insert_products (products_list : list (gmap string pyval)) : M unit :=
  match products_list with
  | [] => ret tt
  | product :: rest => insert_product product ;; insert_products rest
  end.

Definition update_table_products (products_list : list (gmap string pyval))
    : M unit :=
  update sql_truncate_products ;; insert_products products_list.

Definition get_products : M (list product_row) := select sql_select_products.

Definition get_product_by_id (product_id : Z) : M (list product_row) :=
  select (sql_select_product product_id).

Definition add_button_count (user_id : Z) (button_name : string) : M unit :=
  update (sql_upsert_button user_id button_name).

Definition get_start_message : M (option string) :=
  let* result := select sql_select_start_message in
  lift (getitem result 0).

Definition set_start_message (start_message : string) : M unit :=
  update (sql_set_start_message start_message).

Definition set_iml (user_id : Z) (iml : string) : M unit :=
  update (sql_set_iml user_id iml).

Definition set_b24_id (user_id b24_id : Z) : M unit :=
  update (sql_set_b24_id user_id b24_id).

Definition set_lead_id (user_id lead_id : Z) : M unit :=
  update (sql_set_lead_id user_id lead_id).

Definition is_user_exist (user_id : Z) : M bool :=
  let* result := select (sql_select_user user_id) in
  ret (py_bool_list result).

Definition is_b24_contact_exist (user_id : Z) : M bool :=
  let* result := select (sql_select_b24_id user_id) in
  let* first := lift (getitem result 0) in
  ret (py_bool_int first).

Definition get_user_deals (user_id : Z) : M (list deal_row) :=
  select (sql_select_deals user_id).

Definition get_user_deal_by_product_id (user_id product_id : Z)
    : M (list deal_row) :=
  select (sql_select_unpaid_deal user_id product_id).

Definition set_paid_deal (deal_id : Z) : M unit :=
  update (sql_set_paid deal_id).

Definition add_new_user (user_id : Z) (username : option string)
    (full_name : string) : M unit :=
  update (sql_insert_user user_id username full_name).

Definition get_user_data (user_id : Z) : M (list user_row) :=
  select (sql_select_user user_id).

(** ** Reading the state *)

(** The state the guard of [select] and [update] leaves. *)
Definition established (st : State) : State := snd (ensure_pool st).

(** The state with the tables replaced. *)
Definition with_tables (t : Tables) (st : State) : State :=
  mk_state (self st) (set_tables t (server st)).

(** [n] calls of [m], one after the other. *)
Fixpoint times (n : nat) (m : M unit) : M unit :=
  match n with
  | O => ret tt
  | S n' => m ;; times n' m
  end.

(** The counts [buttons_stat] holds for a user and a button. *)
Definition button_counts (user_id : Z) (button_name : string) (t : Tables)
    : list (option Z) :=
  bs_count <$> filter (same_button user_id button_name) (buttons_stat t).

(** A row of [products] read back against the dictionary it came from: the
    same id, name and currency, and a price [x] that stands in [price_ok] to
    the dictionary's. *)
Definition read_back (price_ok : pyfloat -> real -> Prop)
    (product : gmap string pyval) (r : product_row) : Prop :=
  dict_get product "id" = PyInt (p_id r) /\
  text_encode (dict_get product "name") = Ok (p_name r) /\
  text_encode (dict_get product "CURRENCY_ID") = Ok (p_currency_id r) /\
  exists price x,
    py_float (dict_get product "PRICE") = Ok price /\ p_price r = Some x /\
    price_ok price x.


(** The price read back is the price of the dictionary rounded to single
    precision. *)
Definition rounded_price (price : pyfloat) (x : real) : Prop :=
  float4_encode price = Ok x.


(** A call of [connect] or of one of the data-access methods of the class,
    its result dropped. *)
Inductive call : Type :=
  | Call_connect
  | Call_create_table_users
  | Call_create_table_deals
  | Call_create_table_admin_messages
  | Call_create_table_buttons_stat
  | Call_create_table_products
  | Call_create_table_payments
  | Call_add_new_deal (user_id deal_id product_id : Z) (opportunity : pyfloat)
  | Call_add_payment (user_id : Z) (payment_data : SuccessfulPayment)
  | Call_update_table_products (products_list : list (gmap string pyval))
  | Call_get_products
  | Call_get_product_by_id (product_id : Z)
  | Call_add_button_count (user_id : Z) (button_name : string)
  | Call_get_start_message
  | Call_set_start_message (start_message : string)
  | Call_set_iml (user_id : Z) (iml : string)
  | Call_set_b24_id (user_id b24_id : Z)
  | Call_set_lead_id (user_id lead_id : Z)
  | Call_is_user_exist (user_id : Z)
  | Call_is_b24_contact_exist (user_id : Z)
  | Call_get_user_deals (user_id : Z)
  | Call_get_user_deal_by_product_id (user_id product_id : Z)
  | Call_set_paid_deal (deal_id : Z)
  | Call_add_new_user (user_id : Z) (username : option string) (full_name : string)
  | Call_get_user_data (user_id : Z).

(** The state a call leaves, however it ends. *)
Definition perform (c : call) (st : State) : State :=
  match c with
  | Call_connect => snd (connect st)
  | Call_create_table_users => snd (create_table_users st)
  | Call_create_table_deals => snd (create_table_deals st)
  | Call_create_table_admin_messages => snd (create_table_admin_messages st)
  | Call_create_table_buttons_stat => snd (create_table_buttons_stat st)
  | Call_create_table_products => snd (create_table_products st)
  | Call_create_table_payments => snd (create_table_payments st)
  | Call_add_new_deal u d p o => snd (add_new_deal u d p o st)
  | Call_add_payment u pd => snd (add_payment u pd st)
  | Call_update_table_products l => snd (update_table_products l st)
  | Call_get_products => snd (get_products st)
  | Call_get_product_by_id i => snd (get_product_by_id i st)
  | Call_add_button_count u b => snd (add_button_count u b st)
  | Call_get_start_message => snd (get_start_message st)
  | Call_set_start_message m => snd (set_start_message m st)
  | Call_set_iml u i => snd (set_iml u i st)
  | Call_set_b24_id u b => snd (set_b24_id u b st)
  | Call_set_lead_id u l => snd (set_lead_id u l st)
  | Call_is_user_exist u => snd (is_user_exist u st)
  | Call_is_b24_contact_exist u => snd (is_b24_contact_exist u st)
  | Call_get_user_deals u => snd (get_user_deals u st)
  | Call_get_user_deal_by_product_id u p => snd (get_user_deal_by_product_id u p st)
  | Call_set_paid_deal d => snd (set_paid_deal d st)
  | Call_add_new_user u n f => snd (add_new_user u n f st)
  | Call_get_user_data u => snd (get_user_data u st)
  end.

(** The state a sequence of calls leaves. *)
Definition run_calls (cs : list call) (st : State) : State :=
  foldl (fun st c => perform c st) st cs.

(** The call inserts a [users] row for [user_id]. *)
Definition inserts_user (user_id : Z) (c : call) : Prop :=
  match c with
  | Call_add_new_user u _ _ => u = user_id
  | _ => False
  end.

(** The user ids of the [users] table, row by row. *)
Definition user_ids (t : Tables) : list (option Z) := u_user_id <$> users t.

(** Every run of [m] relates the state before to the state after by [P]. *)
Definition keeps {A} (P : State -> State -> Prop) (m : M A) : Prop :=
  forall st, P st (snd (m st)).

(** The pool is as busy as before, [users] holds the same user ids and
    [buttons_stat] the same rows. *)
Definition untouched (st st' : State) : Prop :=
  free_in (server st') = free_in (server st) /\
  user_ids (tables (server st')) = user_ids (tables (server st)) /\
  buttons_stat (tables (server st')) = buttons_stat (tables (server st)).

(** As [untouched], but a row for [user_id] may have been added to [users]. *)
Definition grown_users (user_id : Z) (st st' : State) : Prop :=
  free_in (server st') = free_in (server st) /\
  (user_ids (tables (server st')) = user_ids (tables (server st)) \/
   user_ids (tables (server st')) =
     (user_ids (tables (server st)) ++ [Some user_id])%list) /\
  buttons_stat (tables (server st')) = buttons_stat (tables (server st)).

(** As [untouched], with nothing said of [buttons_stat]. *)
Definition same_users (st st' : State) : Prop :=
  free_in (server st') = free_in (server st) /\
  user_ids (tables (server st')) = user_ids (tables (server st)).

(** The calls of [add_button_count] for a user and a button in a sequence. *)
Fixpoint increments (user_id : Z) (button_name : string) (cs : list call) : nat :=
  match cs with
  | [] => 0
  | Call_add_button_count u b :: cs' =>
      (if bool_decide (u = user_id /\ b = button_name) then 1 else 0)
      + increments user_id button_name cs'
  | _ :: cs' => increments user_id button_name cs'
  end.

(** ** The bounds of the pool *)

(** The bounds [asyncpg.create_pool] accepts; it raises [ValueError] for any
    other. *)
Definition valid_bounds (db : Database) : Prop :=
  (0 <= min_size db)%Z /\ (min_size db <= max_size db)%Z /\ (0 < max_size db)%Z /\
  (0 < max_queries db)%Z /\ (0 <= timeout db)%Z.

(** ** The report of a user's buttons *)

(** The rows as the server hands them out under [ORDER BY count DESC]: which
    of the orders that clause allows it picks (rows of equal count come in an
    order of its choosing) is left to the context. *)
Variable order_by_count_desc : list button_stat_row -> list button_stat_row.

(** What the clause does promise: the same rows, the counts descending. *)
Definition orders_by_count_desc : Prop :=
  forall l, order_by_count_desc l ≡ₚ l /\ Sorted count_desc (order_by_count_desc l).

(** [SELECT * FROM buttons_stat WHERE user_id = $1 ORDER BY count DESC;] *)
Definition sql_select_button_stat_ordered (user_id : Z) : query button_stat_row :=
  fun t => order_by_count_desc (sql_select_button_stat user_id t).

(** [Database.get_button_stat] *)
Definition get_button_stat (user_id : Z) : M (list button_stat_row) :=
  select (sql_select_button_stat_ordered user_id).

(** ** Histories of calls *)

(** A call of [connect] or of any of the data-access methods of the class:
    one of [call], or [get_button_stat]. *)
Inductive method_call : Type :=
  | Method (c : call)
  | Call_get_button_stat (user_id : Z).

Definition perform_method (c : method_call) (st : State) : State :=
  match c with
  | Method c => perform c st
  | Call_get_button_stat u => snd (get_button_stat u st)
  end.

Definition run_methods (cs : list method_call) (st : State) : State :=
  foldl (fun st c => perform_method c st) st cs.

(** The calls of [add_button_count] for a user and a button in a history. *)
Definition is_press (user_id : Z) (button_name : string) (c : method_call) : bool :=
  match c with
  | Method (Call_add_button_count u b) => bool_decide (u = user_id /\ b = button_name)
  | _ => false
  end.

Definition presses (user_id : Z) (button_name : string) (cs : list method_call)
    : nat :=
  length (filter (fun c => is_press user_id button_name c = true) cs).

(** The statements the methods send through [update]. *)
Inductive sent : statement -> Prop :=
  | sent_create_table : sent sql_create_table
  | sent_insert_user u n f : sent (sql_insert_user u n f)
  | sent_set_iml u i : sent (sql_set_iml u i)
  | sent_set_b24_id u b : sent (sql_set_b24_id u b)
  | sent_set_lead_id u l : sent (sql_set_lead_id u l)
  | sent_insert_deal u k p o n : sent (sql_insert_deal u k p o n)
  | sent_set_paid k : sent (sql_set_paid k)
  | sent_set_start_message m : sent (sql_set_start_message m)
  | sent_upsert_button u b : sent (sql_upsert_button u b)
  | sent_truncate_products : sent sql_truncate_products
  | sent_insert_product i n af at_ p c d : sent (sql_insert_product i n af at_ p c d)
  | sent_insert_payment u c a p k t v : sent (sql_insert_payment u c a p k t v).

(** A relation between the tables before and the tables after, read on
    states. *)
Definition on_tables (R : Tables -> Tables -> Prop) (st st' : State) : Prop :=
  R (tables (server st)) (tables (server st')).

(** Every row of [l] is still there, in its place, changed at most as [R]
    allows. *)
Definition rows_kept {A} (R : A -> A -> Prop) (l l' : list A) : Prop :=
  forall i r, l !! i = Some r -> exists r', l' !! i = Some r' /\ R r r'.

(** What may become of a [users] row: the three references to the CRM may
    change, nothing else. *)
Definition user_kept (r r' : user_row) : Prop :=
  u_id r' = u_id r /\ u_user_id r' = u_user_id r /\
  u_username r' = u_username r /\ u_full_name r' = u_full_name r.

(** What may become of a [deals] row: [paid] may change, and only to true. *)
Definition deal_kept (r r' : deal_row) : Prop :=
  d_id r' = d_id r /\ d_user_id r' = d_user_id r /\ d_deal_id r' = d_deal_id r /\
  d_product_id r' = d_product_id r /\ d_opportunity r' = d_opportunity r /\
  d_create_time r' = d_create_time r /\
  (d_paid r' = d_paid r \/ d_paid r' = Some true).

(** What may become of a [buttons_stat] row: its count may grow. *)
Definition button_kept (r r' : button_stat_row) : Prop :=
  bs_id r' = bs_id r /\ bs_user_id r' = bs_user_id r /\
  bs_button_name r' = bs_button_name r /\
  match bs_count r, bs_count r' with
  | Some c, Some c' => (c <= c')%Z
  | None, None => True
  | _, _ => False
  end.

(** At most one [users] row for a user id, one [buttons_stat] row for a user
    and a button, one [products] row for an id. *)
Definition one_row_per_user (t : Tables) : Prop :=
  forall user_id, length (sql_select_user user_id t) <= 1.

Definition one_row_per_button (t : Tables) : Prop :=
  forall user_id button_name,
    length (filter (same_button user_id button_name) (buttons_stat t)) <= 1.

Definition one_row_per_product (t : Tables) : Prop :=
  forall product_id, length (sql_select_product product_id t) <= 1.

(** A [buttons_stat] row as the upsert writes them: no [NULL] in it. *)
Definition button_row_filled (r : button_stat_row) : Prop :=
  is_Some (bs_user_id r) /\ is_Some (bs_button_name r) /\ is_Some (bs_count r).

(** The call of [call] that leaves the state a method call leaves: a
    [get_button_stat] changes the state as any other read does. *)
Definition as_call (c : method_call) : call :=
  match c with
  | Method c => c
  | Call_get_button_stat _ => Call_get_products
  end.

(** [rows_kept] of one table. *)
Definition table_kept {A} (rows : Tables -> list A) (R : A -> A -> Prop)
    (t t' : Tables) : Prop :=
  rows_kept R (rows t) (rows t').

(** An invariant as a relation: it holds after if it held before. *)
Definition carried (I : Tables -> Prop) (t t' : Tables) : Prop := I t -> I t'.

(** * Properties *)

(** ** The pool guard and the two primitives *)

Lemma ensure_pool_run st : ensure_pool st = (Returned tt, established st).
Proof.
  unfold established, ensure_pool, bind, get_self.
  destruct (pool (self st)); reflexivity.
Qed.

Lemma established_connected st p :
  pool (self st) = Some p -> established st = st.
Proof. unfold established, ensure_pool, bind, get_self. intros ->. reflexivity. Qed.

Lemma established_fresh st :
  pool (self st) = None ->
  established st =
    mk_state (set_pool (Some (length (pools (server st)))) (self st))
      (set_pools (pools (server st) ++
                  [mk_pool_config (dsn (self st)) (min_size (self st))
                     (max_size (self st)) (max_queries (self st))
                     (timeout (self st))]) (server st)).
Proof. unfold established, ensure_pool, bind, get_self. intros ->. reflexivity. Qed.

Lemma established_pool st : is_Some (pool (self (established st))).
Proof.
  destruct (pool (self st)) eqn:E.
  - rewrite (established_connected _ _ E), E. eauto.
  - rewrite (established_fresh _ E). simpl. eauto.
Qed.

Lemma established_tables st : tables (server (established st)) = tables (server st).
Proof.
  destruct (pool (self st)) eqn:E.
  - by rewrite (established_connected _ _ E).
  - by rewrite (established_fresh _ E).
Qed.

Lemma established_free_in st : free_in (server (established st)) = free_in (server st).
Proof.
  destruct (pool (self st)) eqn:E.
  - by rewrite (established_connected _ _ E).
  - by rewrite (established_fresh _ E).
Qed.

Lemma established_idem st : established (established st) = established st.
Proof. destruct (established_pool st) as [p E]. exact (established_connected _ _ E). Qed.

Lemma acquire_run st d :
  free_in (server st) = Some d ->
  pool_acquire None (established st) = (Returned tt, established st).
Proof.
  intros H. unfold pool_acquire.
  destruct (established_pool st) as [p ->]. by rewrite established_free_in, H.
Qed.

Lemma acquire_blocked st :
  free_in (server st) = None ->
  pool_acquire None (established st) = (Blocked, established st).
Proof.
  intros H. unfold pool_acquire.
  destruct (established_pool st) as [p ->]. by rewrite established_free_in, H.
Qed.

Lemma update_run s st d :
  free_in (server st) = Some d -> update s st = execute s (established st).
Proof.
  intros H. unfold update, bind. by rewrite ensure_pool_run, (acquire_run _ _ H).
Qed.

Lemma update_blocked s st :
  free_in (server st) = None -> update s st = (Blocked, established st).
Proof.
  intros H. unfold update, bind. by rewrite ensure_pool_run, (acquire_blocked _ H).
Qed.

Lemma select_run {R} (q : query R) st d :
  free_in (server st) = Some d ->
  select q st = (Returned (q (tables (server st))), established st).
Proof.
  intros H. unfold select, bind. rewrite ensure_pool_run, (acquire_run _ _ H).
  unfold fetch. by rewrite established_tables.
Qed.

Lemma select_blocked {R} (q : query R) st :
  free_in (server st) = None -> select q st = (Blocked, established st).
Proof.
  intros H. unfold select, bind. by rewrite ensure_pool_run, (acquire_blocked _ H).
Qed.

Lemma execute_run s st :
  execute s st =
    (match fst (s (tables (server st))) with
     | None => Returned tt
     | Some e => Raised e
     end, with_tables (snd (s (tables (server st)))) st).
Proof. unfold execute, with_tables. by destruct (s (tables (server st))). Qed.

(** ** Connect on first use *)


(** ** Acquiring a connection *)

(** C7, as the code has it.  [select] and [update] acquire with no timeout:
    while the pool stays exhausted they never resume, and they do not raise
    [TimeoutError] for it.  The [timeout] given to the constructor bounds
    nothing here: the outcome of a call is the same for every value of it,
    and [connect] passes it to the pool as the lifetime of an idle
    connection. *)
Theorem acquire_is_unbounded {R} (q : query R) (s : statement) (st : State) :
  (free_in (server st) = None ->
     fst (select q st) = Blocked /\ fst (update s st) = Blocked) /\
  fst (select q st) <> Raised TimeoutError /\
  (fst (update s st) = Raised TimeoutError ->
     fst (s (tables (server st))) = Some TimeoutError) /\
  (forall t,
     fst (select q (mk_state (set_timeout t (self st)) (server st)))
       = fst (select q st) /\
     fst (update s (mk_state (set_timeout t (self st)) (server st)))
       = fst (update s st)) /\
  (cp_max_inactive_connection_lifetime
     <$> last (pools (server (snd (connect st))))) = Some (timeout (self st)).
Proof.
  assert (Hsel : forall st', fst (select q st') =
            match free_in (server st') with
            | Some _ => Returned (q (tables (server st')))
            | None => Blocked
            end).
  { intros st'. destruct (free_in (server st')) eqn:E.
    - by rewrite (select_run q st' n E).
    - by rewrite (select_blocked q st' E). }
  assert (Hupd : forall st', fst (update s st') =
            match free_in (server st') with
            | Some _ => match fst (s (tables (server st'))) with
                        | None => Returned tt
                        | Some e => Raised e
                        end
            | None => Blocked
            end).
  { intros st'. destruct (free_in (server st')) eqn:E.
    - rewrite (update_run s st' n E), execute_run. simpl.
      by rewrite established_tables.
    - by rewrite (update_blocked s st' E). }
  split; [|split; [|split; [|split]]].
  - intros H. rewrite Hsel, Hupd. by rewrite H.
  - rewrite Hsel. by destruct (free_in (server st)).
  - rewrite Hupd. destruct (free_in (server st)); [|done].
    destruct (fst (s (tables (server st)))); [|done]. by intros [= ->].
  - intros t. by rewrite !Hsel, !Hupd.
  - unfold connect, bind, create_pool. simpl. by rewrite last_snoc.
Qed.

(** ** Deals *)


Lemma tables_with_tables t st : tables (server (with_tables t st)) = t.
Proof. reflexivity. Qed.


Lemma free_in_with_tables t st :
  free_in (server (with_tables t st)) = free_in (server st).
Proof. reflexivity. Qed.

Lemma mark_paid_idem r : mark_paid (mark_paid r) = mark_paid r.
Proof. reflexivity. Qed.

Lemma sql_set_paid_deals deal_id t :
  deals (snd (sql_set_paid deal_id t)) =
    (fun r => if bool_decide (d_deal_id r = Some deal_id) then mark_paid r else r)
      <$> deals t.
Proof. reflexivity. Qed.


Lemma set_paid_deal_run deal_id st d :
  free_in (server st) = Some d ->
  set_paid_deal deal_id st =
    (Returned tt,
     with_tables (snd (sql_set_paid deal_id (tables (server st)))) (established st)).
Proof.
  intros H. unfold set_paid_deal. rewrite (update_run _ st d H), execute_run.
  by rewrite established_tables.
Qed.



(** C8.  [set_paid_deal] changes at most the [paid] field.  Row by row, the
    [deals] table after the call has the id, user, deal, product, amount and
    creation time it had before, and a row whose deal id is not the argument
    (or is [NULL]) is the row it was; no other table and no sequence
    changes.  This holds however the call ends. *)
Theorem set_paid_deal_frame (deal_id : Z) (st : State) :
  Forall2
    (fun r r' =>
       d_id r' = d_id r /\ d_user_id r' = d_user_id r /\
       d_deal_id r' = d_deal_id r /\ d_product_id r' = d_product_id r /\
       d_opportunity r' = d_opportunity r /\
       d_create_time r' = d_create_time r /\
       (d_deal_id r <> Some deal_id -> r' = r))
    (deals (tables (server st)))
    (deals (tables (server (snd (set_paid_deal deal_id st))))) /\
  set_deals (deals (tables (server st))) (deals_id_seq (tables (server st)))
    (tables (server (snd (set_paid_deal deal_id st)))) = tables (server st).
Proof.
  destruct (free_in (server st)) eqn:E.
  - rewrite (set_paid_deal_run deal_id st n E). simpl. split.
    + apply Forall2_fmap_r, Forall_Forall2_diag, Forall_forall. intros r _.
      simpl. case_match; simpl; repeat split; try done.
      intros Hne. by apply bool_decide_eq_true in H.
    + by destruct (tables (server st)).
  - unfold set_paid_deal. rewrite (update_blocked _ st E). simpl.
    rewrite established_tables. split.
    + apply Forall_Forall2_diag, Forall_forall. intros r _. repeat split.
    + by destruct (tables (server st)).
Qed.

(** C3.  [get_user_deal_by_product_id] returns unpaid deals only, and a deal
    it returned is gone from its result once [set_paid_deal] has been called
    with that deal's id: the call returns, every row it returns has [paid]
    false, and for each returned row with deal id [k], after
    [set_paid_deal k] the same query returns neither that row nor any row
    with deal id [k]. *)
Theorem unpaid_deal_then_paid (user_id product_id : Z) (st : State) (d : nat) :
  free_in (server st) = Some d ->
  exists rows st1,
    get_user_deal_by_product_id user_id product_id st = (Returned rows, st1) /\
    (forall r, r ∈ rows -> d_paid r = Some false) /\
    (forall r k, r ∈ rows -> d_deal_id r = Some k ->
       exists st2 rows' st3,
         set_paid_deal k st1 = (Returned tt, st2) /\
         get_user_deal_by_product_id user_id product_id st2
           = (Returned rows', st3) /\
         (r ∉ rows') /\
         (forall r', r' ∈ rows' -> d_deal_id r' <> Some k)).
Proof.
  intros H. unfold get_user_deal_by_product_id.
  rewrite (select_run _ st d H). do 2 eexists. split; [reflexivity|]. split.
  - intros r Hr. apply list_elem_of_filter in Hr. tauto.
  - intros r k Hr Hk.
    assert (H1 : free_in (server (established st)) = Some d)
      by by rewrite established_free_in.
    rewrite (set_paid_deal_run k _ d H1), established_idem.
    do 3 eexists. split; [reflexivity|].
    assert (H2 : free_in (server (with_tables
                (snd (sql_set_paid k (tables (server (established st)))))
                (established st))) = Some d) by (simpl; by rewrite established_free_in).
    rewrite (select_run _ _ d H2). split; [reflexivity|].
    assert (Hno : forall r', r' ∈ sql_select_unpaid_deal user_id product_id
                    (tables (server (with_tables
                       (snd (sql_set_paid k (tables (server (established st)))))
                       (established st)))) -> d_deal_id r' <> Some k).
    { intros r' Hr' Hk'. unfold sql_select_unpaid_deal in Hr'. simpl in Hr'.
      apply list_elem_of_filter in Hr' as [(_ & _ & Hp) Hin].
      apply list_elem_of_fmap in Hin as (r0 & -> & _).
      destruct (bool_decide (d_deal_id r0 = Some k)) eqn:B.
      - discriminate Hp.
      - rewrite Hk' in B. by rewrite bool_decide_eq_false in B. }
    split; [|exact Hno].
    intros Hin. exact (Hno r Hin Hk).
Qed.

(** ** Users *)

Lemma filter_none {A} (P : A -> Prop) `{!forall x, Decision (P x)} (l : list A) :
  (forall x, x ∈ l -> ~ P x) -> filter P l = [].
Proof.
  intros Hno. induction l as [|x l IH]; [done|].
  rewrite filter_cons_False by (apply Hno; left).
  apply IH. intros y Hy. apply Hno. by right.
Qed.

Lemma is_user_exist_run user_id st d :
  free_in (server st) = Some d ->
  is_user_exist user_id st =
    (Returned (bool_decide (Some user_id ∈ user_ids (tables (server st)))),
     established st).
Proof.
  intros H. unfold is_user_exist, bind. rewrite (select_run _ st d H).
  unfold ret. do 2 f_equal. unfold sql_select_user, user_ids.
  destruct (filter _ _) as [|r l] eqn:E; simpl.
  - symmetry. apply bool_decide_eq_false. intros Hin.
    apply list_elem_of_fmap in Hin as (r & Hr & Hin).
    assert (Hf : r ∈ filter (fun r => u_user_id r = Some user_id)
                   (users (tables (server st))))
      by (apply list_elem_of_filter; by split).
    rewrite E in Hf. by apply not_elem_of_nil in Hf.
  - symmetry. apply bool_decide_eq_true.
    assert (Hf : r ∈ filter (fun r => u_user_id r = Some user_id)
                   (users (tables (server st)))) by (rewrite E; left).
    apply list_elem_of_filter in Hf as [Hr Hin]. rewrite <- Hr.
    by apply list_elem_of_fmap_2.
Qed.

(** C10.  [is_b24_contact_exist] needs a [users] row.  In a state with no row
    for the user it raises [IndexError] from indexing the empty result,
    where [is_user_exist] returns false. *)
Theorem b24_contact_needs_user (user_id : Z) (st : State) (d : nat) :
  free_in (server st) = Some d ->
  (forall r, r ∈ users (tables (server st)) -> u_user_id r <> Some user_id) ->
  is_b24_contact_exist user_id st = (Raised IndexError, established st) /\
  is_user_exist user_id st = (Returned false, established st).
Proof.
  intros H Hno. split.
  - unfold is_b24_contact_exist, bind. rewrite (select_run _ st d H).
    unfold sql_select_b24_id. by rewrite (filter_none _ _ Hno).
  - rewrite (is_user_exist_run user_id st d H). do 2 f_equal.
    apply bool_decide_eq_false. unfold user_ids. intros Hin.
    apply list_elem_of_fmap in Hin as (r & Hr & Hin). by apply (Hno r).
Qed.

Lemma keeps_ret {A} (P : State -> State -> Prop) `{!Reflexive P} (a : A) :
  keeps P (ret a).
Proof. intros st. simpl. reflexivity. Qed.

Lemma keeps_lift {A} (P : State -> State -> Prop) `{!Reflexive P} (r : result A) :
  keeps P (lift r).
Proof. intros st. destruct r; simpl; reflexivity. Qed.

Lemma keeps_bind {A B} (P : State -> State -> Prop) `{!Transitive P}
    (m : M A) (f : A -> M B) :
  keeps P m -> (forall a, keeps P (f a)) -> keeps P (bind m f).
Proof.
  intros Hm Hf st. unfold bind. specialize (Hm st).
  destruct (m st) as [[a| |] st1]; simpl in *; [|done..].
  etrans; [exact Hm|]. apply Hf.
Qed.

#[local] Instance untouched_refl : Reflexive untouched.
Proof. by intros st. Qed.

#[local] Instance untouched_trans : Transitive untouched.
Proof. intros a b c (H1 & H2 & H3) (H4 & H5 & H6). repeat split; congruence. Qed.

Lemma keeps_ensure_pool : keeps untouched ensure_pool.
Proof.
  intros st. fold (established st). split; [apply established_free_in|].
  by rewrite established_tables.
Qed.

Lemma keeps_connect : keeps untouched connect.
Proof. by intros st. Qed.

Lemma keeps_acquire o : keeps untouched (pool_acquire o).
Proof.
  intros st. unfold pool_acquire.
  destruct (pool (self st)); [|done].
  destruct (free_in (server st)), o; try done. by case_match.
Qed.

Lemma keeps_select {R} (q : query R) : keeps untouched (select q).
Proof.
  unfold select. apply keeps_bind; [apply _|apply keeps_ensure_pool|intros _].
  apply keeps_bind; [apply _|apply keeps_acquire|intros _]. by intros st.
Qed.

Lemma keeps_update (s : statement) :
  (forall t, user_ids (snd (s t)) = user_ids t /\
             buttons_stat (snd (s t)) = buttons_stat t) ->
  keeps untouched (update s).
Proof.
  intros Hs. unfold update.
  apply keeps_bind; [apply _|apply keeps_ensure_pool|intros _].
  apply keeps_bind; [apply _|apply keeps_acquire|intros _].
  intros st. rewrite execute_run. split; [done|]. apply Hs.
Qed.

Lemma user_ids_fmap (f : user_row -> user_row) l s t :
  (forall r, u_user_id (f r) = u_user_id r) ->
  user_ids (set_users (f <$> l) s t) = u_user_id <$> l.
Proof.
  intros Hf. unfold user_ids. simpl. rewrite <- list_fmap_compose.
  apply list_fmap_ext. intros i r _. apply Hf.
Qed.

Lemma keeps_insert_products l : keeps untouched (insert_products l).
Proof.
  induction l as [|product l IH]; simpl.
  - by apply keeps_ret.
  - apply keeps_bind; [apply _| |by intros _].
    unfold insert_product.
    apply keeps_bind; [apply _|by apply keeps_lift|intros active_from].
    apply keeps_bind; [apply _|by apply keeps_lift|intros active_to].
    apply keeps_bind; [apply _|by apply keeps_lift|intros price].
    apply keeps_update. intros t. unfold sql_insert_product.
    repeat case_match; done.
Qed.

Lemma keeps_add_new_user u n f : keeps (grown_users u) (add_new_user u n f).
Proof.
  intros st. unfold add_new_user.
  destruct (free_in (server st)) eqn:E.
  - rewrite (update_run _ st _ E), execute_run. split.
    + simpl. apply established_free_in.
    + simpl. rewrite established_tables.
      unfold sql_insert_user, user_ids. case_bool_decide; simpl; [by split; [left|]|].
      split; [right; by rewrite fmap_app|done].
  - rewrite (update_blocked _ st E). split.
    + apply established_free_in.
    + simpl. rewrite established_tables. by split; [left|].
Qed.

Lemma keeps_add_button_count u b : keeps same_users (add_button_count u b).
Proof.
  intros st. unfold add_button_count.
  destruct (free_in (server st)) eqn:E.
  - rewrite (update_run _ st _ E), execute_run. split.
    + simpl. apply established_free_in.
    + simpl. rewrite established_tables. unfold sql_upsert_button.
      by case_match.
  - rewrite (update_blocked _ st E). split.
    + apply established_free_in.
    + simpl. by rewrite established_tables.
Qed.

Lemma keeps_apply {A} (P : State -> State -> Prop) (m : M A) st :
  keeps P m -> P st (snd (m st)).
Proof. intros H. apply H. Qed.

Ltac by_keeps :=
  lazymatch goal with
  | |- ?P ?st (snd (?m ?st)) => apply (keeps_apply P m st)
  end.

(** What a call may change of the user ids and of the button counters. *)
Lemma perform_footprint c st :
  match c with
  | Call_add_new_user u _ _ => grown_users u st (perform c st)
  | Call_add_button_count _ _ => same_users st (perform c st)
  | _ => untouched st (perform c st)
  end.
Proof.
  destruct c; unfold perform; by_keeps;
    try (apply keeps_select); try (apply keeps_connect);
    try (by apply keeps_update).
  - (* add_new_deal *)
    apply keeps_bind; [apply _|by intros ?|intros time_now].
    apply keeps_update. intros t. unfold sql_insert_deal.
    by case_match.
  - (* add_payment *)
    unfold add_payment.
    apply keeps_bind; [apply _|by apply keeps_lift|intros p].
    apply keeps_bind; [apply _|by apply keeps_lift|intros k].
    by apply keeps_update.
  - (* update_table_products *)
    apply keeps_bind; [apply _|by apply keeps_update|intros _].
    apply keeps_insert_products.
  - (* add_button_count *)
    apply keeps_add_button_count.
  - (* get_start_message *)
    apply keeps_bind; [apply _|apply keeps_select|intros l].
    by apply keeps_lift.
  - (* set_iml *)
    apply keeps_update. intros t. unfold sql_set_iml. simpl.
    split; [|done]. apply user_ids_fmap. intros r. by case_match.
  - (* set_b24_id *)
    apply keeps_update. intros t. unfold sql_set_b24_id. simpl.
    split; [|done]. apply user_ids_fmap. intros r. by case_match.
  - (* set_lead_id *)
    apply keeps_update. intros t. unfold sql_set_lead_id. simpl.
    split; [|done]. apply user_ids_fmap. intros r. by case_match.
  - (* is_user_exist *)
    apply keeps_bind; [apply _|apply keeps_select|intros l]. by apply keeps_ret.
  - (* is_b24_contact_exist *)
    apply keeps_bind; [apply _|apply keeps_select|intros l].
    apply keeps_bind; [apply _|by apply keeps_lift|intros x]. by apply keeps_ret.
  - (* add_new_user *)
    apply keeps_add_new_user.
Qed.

Lemma run_calls_snoc cs c st :
  run_calls (cs ++ [c]) st = perform c (run_calls cs st).
Proof. unfold run_calls. by rewrite foldl_app. Qed.

Lemma perform_free_in c st : free_in (server (perform c st)) = free_in (server st).
Proof. pose proof (perform_footprint c st) as H. destruct c; apply H. Qed.

Lemma run_calls_free_in cs st :
  free_in (server (run_calls cs st)) = free_in (server st).
Proof.
  induction cs as [|c cs IH] using rev_ind; [done|].
  by rewrite run_calls_snoc, perform_free_in.
Qed.

Lemma perform_no_user user_id c st :
  ~ inserts_user user_id c ->
  Some user_id ∉ user_ids (tables (server st)) ->
  Some user_id ∉ user_ids (tables (server (perform c st))).
Proof.
  intros Hc Hno. pose proof (perform_footprint c st) as H.
  destruct c; try (destruct H as (_ & -> & _); exact Hno);
    try (destruct H as (_ & ->); exact Hno).
  destruct H as (_ & [-> | ->] & _); [done|].
  rewrite elem_of_app, list_elem_of_singleton. intros [?|[= ->]]; [done|].
  by apply Hc.
Qed.

Lemma perform_keeps_user user_id c st :
  Some user_id ∈ user_ids (tables (server st)) ->
  Some user_id ∈ user_ids (tables (server (perform c st))).
Proof.
  intros Hin. pose proof (perform_footprint c st) as H.
  destruct c; try (destruct H as (_ & -> & _); exact Hin);
    try (destruct H as (_ & ->); exact Hin).
  destruct H as (_ & [-> | ->] & _); [done|]. apply elem_of_app. by left.
Qed.

Lemma run_calls_no_user user_id cs st :
  Forall (fun c => ~ inserts_user user_id c) cs ->
  Some user_id ∉ user_ids (tables (server st)) ->
  Some user_id ∉ user_ids (tables (server (run_calls cs st))).
Proof.
  induction cs as [|c cs IH] using rev_ind; [done|].
  rewrite Forall_app, Forall_singleton. intros [Hcs Hc] Hno.
  rewrite run_calls_snoc. apply perform_no_user; auto.
Qed.

Lemma run_calls_keeps_user user_id cs st :
  Some user_id ∈ user_ids (tables (server st)) ->
  Some user_id ∈ user_ids (tables (server (run_calls cs st))).
Proof.
  induction cs as [|c cs IH] using rev_ind; [done|].
  intros Hin. rewrite run_calls_snoc. apply perform_keeps_user; auto.
Qed.

Lemma add_new_user_returned user_id username full_name st st1 :
  add_new_user user_id username full_name st = (Returned tt, st1) ->
  is_Some (free_in (server st1)) /\
  Some user_id ∈ user_ids (tables (server st1)).
Proof.
  unfold add_new_user. destruct (free_in (server st)) eqn:E.
  - rewrite (update_run _ st _ E), execute_run, established_tables.
    unfold sql_insert_user. case_bool_decide; simpl; [done|].
    intros [= <-]. simpl. rewrite established_free_in, E. split; [eauto|].
    unfold user_ids. simpl. rewrite fmap_app. apply elem_of_app. right.
    by apply list_elem_of_singleton.
  - by rewrite (update_blocked _ st E).
Qed.

(** C9.  [is_user_exist] tells whether [add_new_user] has committed for the
    user.  From a state with no [users] row for the user, however many calls
    are made that do not insert it, [is_user_exist] returns false; there
    [add_new_user] returns, and from then on, whatever calls follow,
    [is_user_exist] returns true.  More generally, in any state, once
    [add_new_user] has returned, [is_user_exist] returns true. *)
Theorem user_exists_after_insert (user_id : Z) (username : option string)
    (full_name : string) (st : State) (d : nat) (cs cs' : list call) :
  free_in (server st) = Some d ->
  Some user_id ∉ user_ids (tables (server st)) ->
  Forall (fun c => ~ inserts_user user_id c) cs ->
  fst (is_user_exist user_id (run_calls cs st)) = Returned false /\
  (exists st1,
     add_new_user user_id username full_name (run_calls cs st) = (Returned tt, st1) /\
     fst (is_user_exist user_id st1) = Returned true /\
     fst (is_user_exist user_id (run_calls cs' st1)) = Returned true) /\
  (forall st' st1',
     add_new_user user_id username full_name st' = (Returned tt, st1') ->
     fst (is_user_exist user_id st1') = Returned true).
Proof.
  intros Hfree Hno Hcs.
  assert (Hgen : forall st' st1',
     add_new_user user_id username full_name st' = (Returned tt, st1') ->
     forall cs0, fst (is_user_exist user_id (run_calls cs0 st1')) = Returned true).
  { intros st' st1' Hadd cs0.
    apply add_new_user_returned in Hadd as [[n Hn] Hin].
    rewrite (is_user_exist_run user_id _ n) by by rewrite run_calls_free_in.
    simpl. f_equal. apply bool_decide_eq_true. by apply run_calls_keeps_user. }
  pose proof (run_calls_free_in cs st) as Hfree'. rewrite Hfree in Hfree'.
  pose proof (run_calls_no_user user_id cs st Hcs Hno) as Hno'.
  split; [|split].
  - rewrite (is_user_exist_run user_id _ d Hfree'). simpl. f_equal.
    by apply bool_decide_eq_false.
  - assert (Hadd : exists st1, add_new_user user_id username full_name
                     (run_calls cs st) = (Returned tt, st1)).
    { unfold add_new_user. rewrite (update_run _ _ d Hfree'), execute_run.
      rewrite established_tables. unfold sql_insert_user.
      case_bool_decide as Hex; simpl; [|eauto].
      exfalso. apply Hno'. apply Exists_exists in Hex as (r & Hr & Hid).
      rewrite <- Hid. unfold user_ids. by apply list_elem_of_fmap_2. }
    destruct Hadd as [st1 Hadd]. exists st1. split; [exact Hadd|]. split.
    + exact (Hgen _ _ Hadd []).
    + exact (Hgen _ _ Hadd cs').
  - intros st' st1' Hadd. exact (Hgen _ _ Hadd []).
Qed.

(** ** The button counter *)

Lemma button_counts_nil u b t :
  button_counts u b t = [] <-> ~ Exists (same_button u b) (buttons_stat t).
Proof.
  unfold button_counts. split.
  - intros H Hex. apply fmap_nil_inv in H.
    apply Exists_exists in Hex as (r & Hr & HP).
    by apply (filter_nil_not_elem_of _ _ r H HP).
  - intros H. rewrite filter_none; [done|].
    intros r Hr HP. apply H, Exists_exists. eauto.
Qed.

Lemma filter_bump u b (l : list button_stat_row) :
  filter (same_button u b)
    ((fun r => if bool_decide (same_button u b r) then bump r else r) <$> l)
  = bump <$> filter (same_button u b) l.
Proof.
  induction l as [|r l IH]; [done|]. rewrite fmap_cons.
  case_bool_decide as HP.
  - rewrite (filter_cons_True _ (bump r)) by exact HP.
    rewrite (filter_cons_True _ r) by exact HP. by rewrite fmap_cons, IH.
  - by rewrite !filter_cons_False, IH by exact HP.
Qed.

Lemma filter_bump_other u b u' b' (l : list button_stat_row) :
  (u', b') <> (u, b) ->
  filter (same_button u' b')
    ((fun r => if bool_decide (same_button u b r) then bump r else r) <$> l)
  = filter (same_button u' b') l.
Proof.
  intros Hne. induction l as [|r l IH]; [done|]. rewrite fmap_cons.
  case_bool_decide as HP.
  - assert (Hr : ~ same_button u' b' r).
    { intros [H1 H2]. destruct HP as [H3 H4]. apply Hne. congruence. }
    rewrite (filter_cons_False _ (bump r)) by exact Hr.
    by rewrite (filter_cons_False _ r), IH by exact Hr.
  - destruct (decide (same_button u' b' r)) as [Hr|Hr].
    + by rewrite !filter_cons_True, IH by exact Hr.
    + by rewrite !filter_cons_False, IH by exact Hr.
Qed.

Lemma sql_upsert_button_counts u b t :
  button_counts u b (snd (sql_upsert_button u b t)) =
    match button_counts u b t with
    | [] => [Some 1%Z]
    | cs => (fun c : option Z => (fun z => z + 1)%Z <$> c) <$> cs
    end.
Proof.
  unfold sql_upsert_button. case_bool_decide as Hex.
  - assert (Hne : button_counts u b t <> [])
      by (intros Hn; by apply button_counts_nil in Hn).
    destruct (button_counts u b t) eqn:E; [done|]. rewrite <- E.
    unfold button_counts. simpl. rewrite filter_bump, <- !list_fmap_compose.
    by apply list_fmap_ext.
  - apply button_counts_nil in Hex as E. rewrite E.
    unfold button_counts in *. simpl. rewrite filter_app, fmap_app.
    apply fmap_nil_inv in E. rewrite E. simpl.
    by rewrite filter_cons_True by (by split).
Qed.

Lemma add_button_count_run u b st d :
  free_in (server st) = Some d ->
  add_button_count u b st =
    (Returned tt,
     with_tables (snd (sql_upsert_button u b (tables (server st)))) (established st)).
Proof.
  intros H. unfold add_button_count.
  rewrite (update_run _ st d H), execute_run, established_tables.
  unfold sql_upsert_button. by case_bool_decide.
Qed.


Lemma sql_upsert_button_other u b u' b' t :
  (u, b) <> (u', b') ->
  button_counts u b (snd (sql_upsert_button u' b' t)) = button_counts u b t.
Proof.
  intros Hne. unfold sql_upsert_button, button_counts.
  case_bool_decide; simpl.
  - by rewrite filter_bump_other.
  - rewrite filter_app, filter_cons_False, filter_nil, app_nil_r; [done|].
    intros [[= ->] [= ->]]. by apply Hne.
Qed.

Lemma increments_snoc u b cs c :
  increments u b (cs ++ [c]) = (increments u b cs + increments u b [c])%nat.
Proof.
  induction cs as [|c' cs IH]; simpl; [lia|].
  destruct c'; simpl; rewrite ?IH; simpl; try lia.
Qed.

(** Calls of the class in any order: the count of a pair is the number of
    calls of [add_button_count] made for it. *)
Lemma button_counts_run_calls u b cs : forall st d,
  free_in (server st) = Some d ->
  button_counts u b (tables (server st)) = [] ->
  button_counts u b (tables (server (run_calls cs st))) =
    match increments u b cs with
    | O => []
    | S n => [Some (Z.of_nat (S n))]
    end.
Proof.
  intros st d Hfree Hnil.
  induction cs as [|c cs IH] using rev_ind; [done|].
  rewrite run_calls_snoc, increments_snoc.
  pose proof (run_calls_free_in cs st) as Hfree'. rewrite Hfree in Hfree'.
  pose proof (perform_footprint c (run_calls cs st)) as Hc.
  destruct c; try (destruct Hc as (_ & _ & Hb); unfold button_counts in *;
                   rewrite Hb, IH; simpl; by rewrite Nat.add_0_r).
  clear Hc. unfold perform.
  rewrite (add_button_count_run _ _ _ d Hfree'). cbn [snd].
  rewrite tables_with_tables. simpl increments.
  case_bool_decide as Heq.
  - destruct Heq as [-> ->]. rewrite sql_upsert_button_counts, IH.
    destruct (increments u b cs) as [|n]; simpl; [done|].
    do 2 f_equal. lia.
  - rewrite sql_upsert_button_other, IH by (intros [= -> ->]; by apply Heq).
    by rewrite Nat.add_0_r.
Qed.


(** ** Payments *)

Lemma split_no_sep sep s : occurs sep s = false -> split sep s = [s].
Proof.
  induction s as [|c s IH]; [done|]. simpl.
  intros [Hc Hs]%orb_false_iff. rewrite Hc, (IH Hs). done.
Qed.

Lemma split_app sep a b :
  occurs sep a = false -> split sep (a +:+ String sep b) = a :: split sep b.
Proof.
  induction a as [|c a IH]; simpl.
  - intros _. by rewrite Ascii.eqb_refl.
  - intros [Hc Ha]%orb_false_iff. by rewrite Hc, (IH Ha).
Qed.


























(** ** The product mirror *)

Lemma sql_insert_product_spec pid name af at_ price cur desc t :
  match sql_insert_product pid name af at_ price cur desc t with
  | (None, t') =>
      exists i n x c d,
        pid = PyInt i /\ text_encode name = Ok n /\ float4_encode price = Ok x /\
        text_encode cur = Ok c /\
        (forall r0, r0 ∈ products t -> p_id r0 <> i) /\
        t' = set_products
               (products t ++ [mk_product i n (Some af) (Some at_) (Some x) c d]) t
  | (Some _, t') => t' = t
  end.
Proof.
  unfold sql_insert_product.
  destruct pid as [| i | |]; simpl; try done.
  { by destruct (text_encode name), (float4_encode price), (text_encode cur),
      (text_encode desc). }
  destruct (text_encode name) as [n|]; simpl; [|done].
  destruct (float4_encode price) as [x|]; simpl; [|done].
  destruct (text_encode cur) as [c|]; simpl; [|done].
  destruct (text_encode desc) as [d|]; simpl; [|done].
  case_bool_decide as Hex; [done|].
  exists i, n, x, c, d. repeat split; try done.
  intros r0 Hr0 Hid. apply Hex, Exists_exists. eauto.
Qed.

(** What one turn of the loop of [update_table_products] does: it appends
    the row of the product, or raises and leaves the table as it was. *)
Lemma insert_product_run product st d :
  free_in (server st) = Some d ->
  exists o st1,
    insert_product product st = (o, st1) /\
    free_in (server st1) = Some d /\
    ((o = Returned tt /\
      exists r, products (tables (server st1)) = products (tables (server st)) ++ [r] /\
        read_back rounded_price product r /\
        (forall r0, r0 ∈ products (tables (server st)) -> p_id r0 <> p_id r)) \/
     ((exists e, o = Raised e) /\
      products (tables (server st1)) = products (tables (server st)))).
Proof.
  intros Hfree. unfold insert_product, bind.
  destruct (parse_timestamp (dict_get product "dateActiveFrom")) as [af|e]; simpl;
    [|do 2 eexists; split; [done|]; split; [done|]; right; eauto].
  destruct (parse_timestamp (dict_get product "dateActiveTo")) as [at_|e]; simpl;
    [|do 2 eexists; split; [done|]; split; [done|]; right; eauto].
  destruct (py_float (dict_get product "PRICE")) as [price|e] eqn:Hprice; simpl;
    [|do 2 eexists; split; [done|]; split; [done|]; right; eauto].
  rewrite (update_run _ st d Hfree), execute_run, established_tables.
  pose proof (sql_insert_product_spec (dict_get product "id")
                (dict_get product "name") af at_ price
                (dict_get product "CURRENCY_ID") (dict_get product "detailText")
                (tables (server st))) as Hspec.
  destruct (sql_insert_product _ _ _ _ _ _ _ _) as [[e|] t']; simpl.
  - subst t'. do 2 eexists. split; [done|].
    split; [by rewrite free_in_with_tables, established_free_in|].
    right. split; [eauto|]. by rewrite tables_with_tables.
  - destruct Hspec as (i & n & x & c & dsc & Hid & Hn & Hx & Hc & Hfresh & ->).
    do 2 eexists. split; [done|].
    split; [by rewrite free_in_with_tables, established_free_in|].
    left. split; [done|]. eexists. rewrite tables_with_tables. simpl.
    split; [done|]. split; [|exact Hfresh].
    unfold read_back. simpl. repeat split; try done.
    exists price, x. by repeat split.
Qed.

(** The loop appends the rows of a prefix of the list, all of it when it
    returns, and keeps the ids of the table distinct. *)
Lemma insert_products_run l : forall st d,
  free_in (server st) = Some d ->
  NoDup (p_id <$> products (tables (server st))) ->
  exists o st1 n rows,
    insert_products l st = (o, st1) /\
    free_in (server st1) = Some d /\
    products (tables (server st1)) = products (tables (server st)) ++ rows /\
    Forall2 (read_back rounded_price) (take n l) rows /\
    NoDup (p_id <$> products (tables (server st1))) /\
    (o = Returned tt -> n = length l).
Proof.
  induction l as [|product l IH]; intros st d Hfree Hnd.
  - exists (Returned tt), st, 0%nat, []. simpl. rewrite app_nil_r.
    repeat split; try done.
  - simpl insert_products. unfold bind.
    destruct (insert_product_run product st d Hfree)
      as (o & st1 & -> & Hfree1 & [[-> (r & Hrows & Hr & Hfresh)] | [[e ->] Hrows]]).
    + assert (Hnd1 : NoDup (p_id <$> products (tables (server st1)))).
      { rewrite Hrows, fmap_app. apply NoDup_app. split; [done|]. split.
        - intros i Hi ->%list_elem_of_singleton.
          apply list_elem_of_fmap in Hi as (r0 & Hid & Hr0).
          by apply (Hfresh r0).
        - apply NoDup_singleton. }
      destruct (IH st1 d Hfree1 Hnd1)
        as (o & st2 & n & rows & -> & Hfree2 & Hrows2 & Hall & Hnd2 & Hn).
      exists o, st2, (S n), (r :: rows). split; [done|]. split; [done|].
      split; [by rewrite Hrows2, Hrows, <- app_assoc|].
      split; [by constructor|]. split; [done|]. intros Ho. by rewrite (Hn Ho).
    + exists (Raised e), st1, 0%nat, []. split; [done|]. split; [done|].
      split; [by rewrite app_nil_r|]. split; [constructor|].
      split; [by rewrite Hrows|done].
Qed.

Lemma update_table_products_run l st d :
  free_in (server st) = Some d ->
  exists o st1 n,
    update_table_products l st = (o, st1) /\
    free_in (server st1) = Some d /\
    Forall2 (read_back rounded_price) (take n l) (products (tables (server st1))) /\
    NoDup (p_id <$> products (tables (server st1))) /\
    (o = Returned tt -> n = length l).
Proof.
  intros Hfree. unfold update_table_products, bind.
  rewrite (update_run _ st d Hfree), execute_run. simpl.
  destruct (insert_products_run l
              (with_tables (set_products [] (tables (server (established st))))
                 (established st)) d)
    as (o & st1 & n & rows & -> & Hfree1 & Hrows & Hall & Hnd & Hn).
  - by rewrite free_in_with_tables, established_free_in.
  - simpl. constructor.
  - exists o, st1, n. rewrite Hrows in *. simpl in *. by repeat split.
Qed.

Lemma get_product_by_id_run i st d :
  free_in (server st) = Some d ->
  get_product_by_id i st =
    (Returned (filter (fun r => p_id r = i) (products (tables (server st)))),
     established st).
Proof. intros Hfree. unfold get_product_by_id. by rewrite (select_run _ st d Hfree). Qed.

Lemma filter_unique (rows : list product_row) r :
  NoDup (p_id <$> rows) -> r ∈ rows ->
  filter (fun x => p_id x = p_id r) rows = [r].
Proof.
  induction rows as [|x rows IH]; [by intros _ ?%not_elem_of_nil|].
  rewrite fmap_cons, NoDup_cons. intros [Hx Hnd] [->|Hin]%elem_of_cons.
  - rewrite filter_cons_True by done. f_equal. apply filter_none.
    intros y Hy Hid. apply Hx. rewrite <- Hid. by apply list_elem_of_fmap_2.
  - rewrite filter_cons_False; [by apply IH|].
    intros Hid. apply Hx. rewrite Hid. by apply list_elem_of_fmap_2.
Qed.





(** ** What every call keeps *)

#[local] Instance on_tables_refl R `{!Reflexive R} : Reflexive (on_tables R).
Proof. intros st. unfold on_tables. reflexivity. Qed.

#[local] Instance on_tables_trans R `{!Transitive R} : Transitive (on_tables R).
Proof. intros a b c. unfold on_tables. apply transitivity. Qed.

Lemma select_state {R} (q : query R) st : snd (select q st) = established st.
Proof.
  destruct (free_in (server st)) eqn:E.
  - by rewrite (select_run q st _ E).
  - by rewrite (select_blocked q st E).
Qed.

Lemma keeps_select_on R `{!Reflexive R} {A} (q : query A) :
  keeps (on_tables R) (select q).
Proof.
  intros st. rewrite select_state. unfold on_tables.
  rewrite established_tables. reflexivity.
Qed.

Lemma keeps_update_on R `{!Reflexive R} (s : statement) :
  (forall t, R t (snd (s t))) -> keeps (on_tables R) (update s).
Proof.
  intros Hs st. unfold on_tables. destruct (free_in (server st)) eqn:E.
  - rewrite (update_run s st _ E), execute_run. simpl.
    rewrite established_tables. apply Hs.
  - rewrite (update_blocked s st E). simpl. rewrite established_tables.
    reflexivity.
Qed.

Lemma keeps_connect_on R `{!Reflexive R} : keeps (on_tables R) connect.
Proof. intros st. unfold on_tables. simpl. reflexivity. Qed.

Lemma keeps_insert_products_on R `{!PreOrder R} l :
  (forall s, sent s -> forall t, R t (snd (s t))) ->
  keeps (on_tables R) (insert_products l).
Proof.
  intros Hs. induction l as [|product l IH]; simpl.
  - apply keeps_ret. apply _.
  - apply keeps_bind; [apply _| |by intros _].
    unfold insert_product.
    apply keeps_bind; [apply _|apply keeps_lift; apply _|intros active_from].
    apply keeps_bind; [apply _|apply keeps_lift; apply _|intros active_to].
    apply keeps_bind; [apply _|apply keeps_lift; apply _|intros price].
    apply keeps_update_on; [apply _|]. apply Hs. constructor.
Qed.

(** A relation between tables that every statement the class sends keeps,
    every call keeps. *)
Lemma perform_keeps R `{!PreOrder R} :
  (forall s, sent s -> forall t, R t (snd (s t))) ->
  forall c st, on_tables R st (perform c st).
Proof.
  intros Hs c st.
  assert (Hup : forall s, sent s -> keeps (on_tables R) (update s))
    by (intros s H; apply keeps_update_on; [apply _|by apply Hs]).
  destruct c; unfold perform; by_keeps;
    try (apply keeps_select_on; apply _);
    try (apply keeps_connect_on; apply _);
    try (apply Hup; constructor).
  - (* add_new_deal *)
    apply keeps_bind; [apply _| |intros time_now; apply Hup; constructor].
    intros st'. unfold on_tables. simpl. reflexivity.
  - (* add_payment *)
    unfold add_payment.
    apply keeps_bind; [apply _|apply keeps_lift; apply _|intros p].
    apply keeps_bind; [apply _|apply keeps_lift; apply _|intros k].
    apply Hup. constructor.
  - (* update_table_products *)
    apply keeps_bind; [apply _|apply Hup; constructor|intros _].
    by apply keeps_insert_products_on.
  - (* get_start_message *)
    apply keeps_bind; [apply _|apply keeps_select_on; apply _|intros l].
    apply keeps_lift. apply _.
  - (* is_user_exist *)
    apply keeps_bind; [apply _|apply keeps_select_on; apply _|intros l].
    apply keeps_ret. apply _.
  - (* is_b24_contact_exist *)
    apply keeps_bind; [apply _|apply keeps_select_on; apply _|intros l].
    apply keeps_bind; [apply _|apply keeps_lift; apply _|intros x].
    apply keeps_ret. apply _.
Qed.

Lemma run_calls_keeps R `{!PreOrder R} :
  (forall s, sent s -> forall t, R t (snd (s t))) ->
  forall cs st, on_tables R st (run_calls cs st).
Proof.
  intros Hs cs st. induction cs as [|c cs IH] using rev_ind.
  - unfold on_tables. simpl. reflexivity.
  - rewrite run_calls_snoc. etrans; [exact IH|]. by apply perform_keeps.
Qed.

Lemma perform_method_as_call c st : perform_method c st = perform (as_call c) st.
Proof.
  destruct c as [c|u]; [done|]. simpl. unfold get_button_stat, get_products.
  by rewrite !select_state.
Qed.

Lemma run_methods_as_calls cs st :
  run_methods cs st = run_calls (as_call <$> cs) st.
Proof.
  revert st. induction cs as [|c cs IH]; intros st; [done|].
  simpl. rewrite <- perform_method_as_call. apply IH.
Qed.

Lemma presses_increments u b cs :
  presses u b cs = increments u b (as_call <$> cs).
Proof.
  unfold presses. induction cs as [|c cs IH]; [done|].
  destruct c as [c|u']; simpl.
  - destruct c; simpl;
      try (rewrite filter_cons_False by (simpl; congruence); exact IH).
    case_bool_decide as Hp.
    + rewrite filter_cons_True by (simpl; by apply bool_decide_eq_true).
      simpl. by rewrite IH.
    + rewrite filter_cons_False
        by (simpl; rewrite bool_decide_eq_false_2; [congruence|done]).
      by rewrite IH.
  - rewrite filter_cons_False by (simpl; congruence). exact IH.
Qed.

Lemma run_methods_keeps R `{!PreOrder R} :
  (forall s, sent s -> forall t, R t (snd (s t))) ->
  forall cs st, R (tables (server st)) (tables (server (run_methods cs st))).
Proof.
  intros Hs cs st. rewrite run_methods_as_calls. by apply run_calls_keeps.
Qed.

Lemma run_methods_free_in cs st :
  free_in (server (run_methods cs st)) = free_in (server st).
Proof. rewrite run_methods_as_calls. apply run_calls_free_in. Qed.

#[local] Instance rows_kept_refl {A} (R : A -> A -> Prop) `{!Reflexive R} :
  Reflexive (rows_kept R).
Proof. intros l i r Hr. eauto. Qed.

#[local] Instance rows_kept_trans {A} (R : A -> A -> Prop) `{!Transitive R} :
  Transitive (rows_kept R).
Proof.
  intros l1 l2 l3 H12 H23 i r Hr.
  destruct (H12 i r Hr) as (r' & Hr' & HR).
  destruct (H23 i r' Hr') as (r'' & Hr'' & HR'). exists r''. split; [done|].
  by etrans.
Qed.

Lemma rows_kept_fmap {A} (R : A -> A -> Prop) (f : A -> A) l :
  (forall r, R r (f r)) -> rows_kept R l (f <$> l).
Proof.
  intros Hf i r Hr. exists (f r). split; [|apply Hf].
  by rewrite list_lookup_fmap, Hr.
Qed.

Lemma rows_kept_app {A} (R : A -> A -> Prop) `{!Reflexive R} l new :
  rows_kept R l (l ++ new).
Proof.
  intros i r Hr. exists r. split; [|reflexivity]. by apply lookup_app_l_Some.
Qed.

#[local] Instance carried_preorder I : PreOrder (carried I).
Proof. split; [by intros t Ht|]. intros a b c Hab Hbc Ha. by apply Hbc, Hab. Qed.

#[local] Instance table_kept_preorder {A} (rows : Tables -> list A)
    (R : A -> A -> Prop) `{!PreOrder R} : PreOrder (table_kept rows R).
Proof.
  split.
  - intros t. unfold table_kept. reflexivity.
  - intros a b c. unfold table_kept. apply transitivity.
Qed.

#[local] Instance deal_kept_preorder : PreOrder deal_kept.
Proof.
  split.
  - intros r. unfold deal_kept. tauto.
  - intros a b c (H1 & H2 & H3 & H4 & H5 & H6 & H7) (G1 & G2 & G3 & G4 & G5 & G6 & G7).
    unfold deal_kept. repeat split; try congruence.
    destruct G7 as [G7|G7]; [|by right]. rewrite G7. exact H7.
Qed.

#[local] Instance user_kept_preorder : PreOrder user_kept.
Proof.
  split.
  - intros r. unfold user_kept. tauto.
  - intros a b c (H1 & H2 & H3 & H4) (G1 & G2 & G3 & G4).
    unfold user_kept. repeat split; congruence.
Qed.

#[local] Instance button_kept_preorder : PreOrder button_kept.
Proof.
  split.
  - intros r. unfold button_kept. repeat split. by destruct (bs_count r).
  - intros a b c (H1 & H2 & H3 & H4) (G1 & G2 & G3 & G4).
    unfold button_kept. repeat split; try congruence.
    destruct (bs_count a), (bs_count b), (bs_count c); try done. lia.
Qed.

(** A statement that leaves a table alone. *)
Ltac table_alone :=
  unfold sql_insert_user, sql_insert_deal, sql_upsert_button, sql_insert_product;
  repeat case_match; simpl; reflexivity.

Lemma sent_keeps_deals s :
  sent s -> forall t, table_kept deals deal_kept t (snd (s t)).
Proof.
  intros Hs t. unfold table_kept. destruct Hs; try (simpl; table_alone).
  - unfold sql_insert_deal. case_match; simpl; [|reflexivity].
    apply rows_kept_app. apply _.
  - simpl. apply rows_kept_fmap. intros r. case_bool_decide; [|reflexivity].
    unfold deal_kept, mark_paid. simpl. repeat split. by right.
Qed.


Lemma sent_keeps_users s :
  sent s -> forall t, table_kept users user_kept t (snd (s t)).
Proof.
  intros Hs t. unfold table_kept. destruct Hs; try (simpl; table_alone).
  - unfold sql_insert_user. case_bool_decide; simpl; [reflexivity|].
    apply rows_kept_app. apply _.
  - simpl. apply rows_kept_fmap. intros r. by case_bool_decide.
  - simpl. apply rows_kept_fmap. intros r. by case_bool_decide.
  - simpl. apply rows_kept_fmap. intros r. by case_bool_decide.
Qed.

Lemma sent_keeps_admin_messages s :
  sent s -> forall t,
  length (admin_messages (snd (s t))) = length (admin_messages t).
Proof.
  intros Hs t. destruct Hs; try (simpl; table_alone).
  simpl. by rewrite length_fmap.
Qed.

Lemma sent_keeps_buttons s :
  sent s -> forall t, table_kept buttons_stat button_kept t (snd (s t)).
Proof.
  intros Hs t. unfold table_kept. destruct Hs; try (simpl; table_alone).
  unfold sql_upsert_button. case_bool_decide; simpl.
  - apply rows_kept_fmap. intros r. case_bool_decide; [|reflexivity].
    unfold button_kept, bump. simpl. repeat split.
    destruct (bs_count r); simpl; [lia|done].
  - apply rows_kept_app. apply _.
Qed.

Lemma filter_fmap_same {A} (P : A -> Prop) `{!forall x, Decision (P x)}
    (f : A -> A) (l : list A) :
  (forall r, P (f r) <-> P r) -> filter P (f <$> l) = f <$> filter P l.
Proof.
  intros Hf. induction l as [|r l IH]; [done|]. rewrite fmap_cons.
  destruct (decide (P r)) as [Hr|Hr].
  - rewrite (filter_cons_True _ (f r)) by by apply Hf.
    rewrite (filter_cons_True _ r) by done. by rewrite fmap_cons, IH.
  - rewrite (filter_cons_False _ (f r)) by by rewrite Hf.
    by rewrite (filter_cons_False _ r) by done.
Qed.

Lemma filter_snoc_fresh {A} (P : A -> Prop) `{!forall x, Decision (P x)}
    (l : list A) (x : A) :
  (P x -> forall y, y ∈ l -> ~ P y) ->
  length (filter P l) <= 1 -> length (filter P (l ++ [x])) <= 1.
Proof.
  intros Hfresh Hl. rewrite filter_app. destruct (decide (P x)) as [Hx|Hx].
  - rewrite (filter_none P l) by by apply Hfresh.
    rewrite filter_cons_True by done. simpl. lia.
  - rewrite filter_cons_False by done. by rewrite filter_nil, app_nil_r.
Qed.

Lemma sent_keeps_one_user s :
  sent s -> forall t, carried one_row_per_user t (snd (s t)).
Proof.
  intros Hs t H u. unfold sql_select_user.
  destruct Hs;
    try (replace (users (snd (sql_create_table t))) with (users t) by done; apply H);
    try (simpl; apply H);
    try (simpl; rewrite filter_fmap_same, length_fmap;
         [apply H|intros r; by case_bool_decide]).
  - unfold sql_insert_user. case_bool_decide as Hex; simpl; [apply H|].
    apply filter_snoc_fresh; [|apply H]. simpl. intros [= <-] y Hy Hid.
    apply Hex, Exists_exists. eauto.
  - unfold sql_insert_deal. case_match; apply H.
  - unfold sql_upsert_button. case_match; apply H.
  - unfold sql_insert_product. repeat case_match; apply H.
Qed.

Lemma sent_keeps_one_button s :
  sent s -> forall t, carried one_row_per_button t (snd (s t)).
Proof.
  intros Hs t H u b.
  destruct Hs; try (simpl; apply H).
  - unfold sql_insert_user. case_match; apply H.
  - unfold sql_insert_deal. case_match; apply H.
  - unfold sql_upsert_button. case_bool_decide as Hex; simpl.
    + rewrite filter_fmap_same, length_fmap; [apply H|].
      intros r. by case_bool_decide.
    + apply filter_snoc_fresh; [|apply H].
      intros [Hu Hb] y Hy [Hu' Hb']. simpl in Hu, Hb.
      apply Hex, Exists_exists. exists y. split; [done|].
      split; congruence.
  - unfold sql_insert_product. repeat case_match; apply H.
Qed.

Lemma sent_keeps_one_product s :
  sent s -> forall t, carried one_row_per_product t (snd (s t)).
Proof.
  intros Hs t H i. unfold sql_select_product.
  destruct Hs; try (simpl; apply H).
  - unfold sql_insert_user. case_match; apply H.
  - unfold sql_insert_deal. case_match; apply H.
  - unfold sql_upsert_button. case_match; apply H.
  - simpl. lia.
  - pose proof (sql_insert_product_spec i0 n af at_ p c d t) as Hspec.
    destruct (sql_insert_product _ _ _ _ _ _ _ _) as [[e|] t']; simpl.
    + subst t'. apply H.
    + destruct Hspec as (k & n' & x & c' & d' & _ & _ & _ & _ & Hfresh & ->).
      simpl. apply filter_snoc_fresh; [|apply H].
      simpl. intros <- y Hy. by apply Hfresh.
Qed.

Lemma sent_keeps_filled s :
  sent s -> forall t,
  carried (fun t => Forall button_row_filled (buttons_stat t)) t (snd (s t)).
Proof.
  intros Hs t H.
  destruct Hs; try (simpl; apply H).
  - unfold sql_insert_user. case_match; apply H.
  - unfold sql_insert_deal. case_match; apply H.
  - unfold sql_upsert_button. case_bool_decide as Hex; simpl.
    + apply Forall_fmap. eapply Forall_impl; [exact H|].
      intros r (Hu & Hb & [c Hc]). simpl. case_bool_decide; [|done].
      unfold button_row_filled, bump. simpl. rewrite Hc. simpl. eauto.
    + apply Forall_app. split; [exact H|]. apply Forall_singleton.
      unfold button_row_filled. simpl. eauto.
  - unfold sql_insert_product. repeat case_match; apply H.
Qed.

#[local] Instance payments_prefix_preorder :
  PreOrder (fun t t' => payments t `prefix_of` payments t').
Proof.
  split; [by intros t|]. intros a b c Hab Hbc. by etrans.
Qed.

#[local] Instance admin_length_preorder :
  PreOrder (fun t t' => length (admin_messages t') = length (admin_messages t)).
Proof.
  split; [by intros t|]. intros a b c Hab Hbc. congruence.
Qed.

(** ** Properties of the whole class *)

(** X3.  No method deletes a [users] row or rewrites who it is.  Whatever
    methods are called, in whatever order and however each call ends, a row
    of [users] is still in its place afterwards with the id, user id, user
    name and full name it had; only the three references to the CRM may have
    changed. *)
Theorem users_rows_kept (cs : list method_call) (st : State) (i : nat)
    (r : user_row) :
  users (tables (server st)) !! i = Some r ->
  exists r',
    users (tables (server (run_methods cs st))) !! i = Some r' /\
    u_id r' = u_id r /\ u_user_id r' = u_user_id r /\
    u_username r' = u_username r /\ u_full_name r' = u_full_name r.
Proof.
  intros Hr.
  exact (run_methods_keeps (table_kept users user_kept) sent_keeps_users cs st i r Hr).
Qed.

(** X4.  [users] holds at most one row per user id, as its [UNIQUE]
    constraint has it: from a state where that is so, whatever methods are
    called, [get_user_data] returns at most one row. *)
Theorem one_users_row_per_user (cs : list method_call) (st : State) (d : nat)
    (user_id : Z) :
  free_in (server st) = Some d ->
  one_row_per_user (tables (server st)) ->
  exists rows,
    fst (get_user_data user_id (run_methods cs st)) = Returned rows /\
    length rows <= 1.
Proof.
  intros Hfree Hone. unfold get_user_data.
  rewrite (select_run _ _ d) by by rewrite run_methods_free_in.
  eexists. split; [reflexivity|].
  by apply (run_methods_keeps (carried one_row_per_user) sent_keeps_one_user cs st).
Qed.

(** X9.  No method deletes a [deals] row, and of a row only [paid] ever
    changes, and only to true.  Whatever methods are called, a row of
    [deals] is still in its place afterwards with the id, user, deal,
    product, amount and creation time it had, and with [paid] as it was or
    true: a deal that was paid stays paid. *)
Theorem deals_never_lost (cs : list method_call) (st : State) (i : nat)
    (r : deal_row) :
  deals (tables (server st)) !! i = Some r ->
  exists r',
    deals (tables (server (run_methods cs st))) !! i = Some r' /\
    d_id r' = d_id r /\ d_user_id r' = d_user_id r /\ d_deal_id r' = d_deal_id r /\
    d_product_id r' = d_product_id r /\ d_opportunity r' = d_opportunity r /\
    d_create_time r' = d_create_time r /\
    (d_paid r' = d_paid r \/ d_paid r' = Some true) /\
    (d_paid r = Some true -> d_paid r' = Some true).
Proof.
  intros Hr.
  destruct (run_methods_keeps (table_kept deals deal_kept) sent_keeps_deals cs st i r Hr)
    as (r' & Hr' & H1 & H2 & H3 & H4 & H5 & H6 & H7).
  exists r'. repeat split; try done.
  intros Hp. destruct H7 as [H7|H7]; congruence.
Qed.


(** X11.  No method creates the greeting.  The number of rows of
    [admin_messages] is the same after any calls as before; so on a database
    whose [admin_messages] is empty, [get_start_message] raises [IndexError]
    whatever has been called before it, [set_start_message] included. *)
Theorem start_message_never_created (cs : list method_call) (st : State)
    (d : nat) :
  free_in (server st) = Some d ->
  length (admin_messages (tables (server (run_methods cs st))))
    = length (admin_messages (tables (server st))) /\
  (admin_messages (tables (server st)) = [] ->
   fst (get_start_message (run_methods cs st)) = Raised IndexError).
Proof.
  intros Hfree.
  pose proof (run_methods_keeps
                (fun t t' => length (admin_messages t') = length (admin_messages t))
                sent_keeps_admin_messages cs st) as Hlen.
  cbv beta in Hlen. split; [exact Hlen|]. intros Hnil. rewrite Hnil in Hlen.
  apply nil_length_inv in Hlen.
  unfold get_start_message, bind.
  rewrite (select_run _ _ d) by by rewrite run_methods_free_in.
  unfold sql_select_start_message. by rewrite Hlen.
Qed.

(** X13.  [products] holds at most one row per id, as its primary key has
    it: from a state where that is so, whatever methods are called,
    [get_product_by_id] returns at most one row; and after a call of
    [update_table_products] it does so whatever the table held before. *)
Theorem one_products_row_per_id (cs : list method_call) (st : State) (d : nat)
    (product_id : Z) :
  free_in (server st) = Some d ->
  (one_row_per_product (tables (server st)) ->
   exists rows,
     fst (get_product_by_id product_id (run_methods cs st)) = Returned rows /\
     length rows <= 1) /\
  (forall products_list,
   exists rows,
     fst (get_product_by_id product_id (snd (update_table_products products_list st)))
       = Returned rows /\
     length rows <= 1).
Proof.
  intros Hfree. split.
  - intros Hone. rewrite (get_product_by_id_run _ _ d)
      by by rewrite run_methods_free_in.
    eexists. split; [reflexivity|].
    by apply (run_methods_keeps (carried one_row_per_product)
                sent_keeps_one_product cs st).
  - intros l.
    destruct (update_table_products_run l st d Hfree)
      as (o & st1 & n & Hrun & Hfree1 & _ & Hnd & _).
    rewrite Hrun. simpl. rewrite (get_product_by_id_run _ _ d Hfree1).
    eexists. split; [reflexivity|]. simpl.
    destruct (filter _ _) as [|r rows] eqn:E; [simpl; lia|].
    assert (Hr : r ∈ filter (fun r => p_id r = product_id)
                   (products (tables (server st1)))) by (rewrite E; left).
    apply list_elem_of_filter in Hr as [Hid Hr].
    pose proof (filter_unique _ r Hnd Hr) as Hu. rewrite Hid, E in Hu.
    by rewrite Hu.
Qed.

(** X17.  A counter of [buttons_stat] is never removed and never goes down,
    and no user and button get a second row.  Whatever methods are called, a
    row of [buttons_stat] is still in its place afterwards, for the same user
    and button and with a count at least as large; and if no user and button
    had two rows before, none has after. *)
Theorem button_counts_never_decrease (cs : list method_call) (st : State) :
  (forall i r,
     buttons_stat (tables (server st)) !! i = Some r ->
     exists r',
       buttons_stat (tables (server (run_methods cs st))) !! i = Some r' /\
       bs_id r' = bs_id r /\ bs_user_id r' = bs_user_id r /\
       bs_button_name r' = bs_button_name r /\
       (forall c, bs_count r = Some c ->
          exists c', bs_count r' = Some c' /\ (c <= c')%Z)) /\
  (one_row_per_button (tables (server st)) ->
   one_row_per_button (tables (server (run_methods cs st)))).
Proof.
  split.
  - intros i r Hr.
    destruct (run_methods_keeps (table_kept buttons_stat button_kept)
                sent_keeps_buttons cs st i r Hr) as (r' & Hr' & H1 & H2 & H3 & H4).
    exists r'. repeat split; try done. intros c Hc. rewrite Hc in H4.
    destruct (bs_count r'); [eauto|done].
  - exact (run_methods_keeps (carried one_row_per_button) sent_keeps_one_button cs st).
Qed.

(** ** Properties of single methods *)

Lemma connect_run st :
  connect st =
    (Returned tt,
     mk_state (set_pool (Some (length (pools (server st)))) (self st))
       (set_pools (pools (server st) ++
                   [mk_pool_config (dsn (self st)) (min_size (self st))
                      (max_size (self st)) (max_queries (self st))
                      (timeout (self st))]) (server st))).
Proof. reflexivity. Qed.

(** X1.  [connect] has no guard of its own: for an object with bounds the
    library accepts, every call opens one more pool with those bounds and
    puts it in [self.pool], whether or not the object held a pool, and the
    pool it held is left open on the server.
    So [n] calls leave [n] more pools, the last of them in [self.pool], and
    the tables as they were; and [__aenter__], which is one call of
    [connect], opens a pool also on an object that has one. *)
Theorem connect_opens_a_pool_each_time (n : nat) (st : State) :
  valid_bounds (self st) ->
  exists st',
    times n connect st = (Returned tt, st') /\
    pools (server st') =
      pools (server st) ++
      replicate n (mk_pool_config (dsn (self st)) (min_size (self st))
                     (max_size (self st)) (max_queries (self st))
                     (timeout (self st))) /\
    pool (self st') =
      match n with
      | O => pool (self st)
      | S k => Some (length (pools (server st)) + k)
      end /\
    tables (server st') = tables (server st) /\
    fst (aenter st') = Returned tt /\
    length (pools (server (snd (aenter st')))) = S (length (pools (server st'))) /\
    pool (self (snd (aenter st'))) = Some (length (pools (server st'))).
Proof.
  assert (Hn : forall n st, exists st',
    times n connect st = (Returned tt, st') /\
    pools (server st') =
      pools (server st) ++
      replicate n (mk_pool_config (dsn (self st)) (min_size (self st))
                     (max_size (self st)) (max_queries (self st))
                     (timeout (self st))) /\
    pool (self st') =
      match n with
      | O => pool (self st)
      | S k => Some (length (pools (server st)) + k)
      end /\
    tables (server st') = tables (server st)).
  { clear n st. induction n as [|n IH]; intros st.
    - exists st. simpl. by rewrite app_nil_r.
    - simpl times. unfold bind. rewrite connect_run.
      destruct (IH (mk_state (set_pool (Some (length (pools (server st)))) (self st))
                      (set_pools (pools (server st) ++
                         [mk_pool_config (dsn (self st)) (min_size (self st))
                            (max_size (self st)) (max_queries (self st))
                            (timeout (self st))]) (server st))))
        as (st' & Hrun & Hpools & Hpool & Htables).
      exists st'. split; [exact Hrun|]. simpl in *.
      split; [by rewrite Hpools, <- app_assoc|]. split; [|exact Htables].
      rewrite Hpool. destruct n; simpl; [f_equal; lia|].
      rewrite length_app. simpl. f_equal. lia. }
  intros _. destruct (Hn n st) as (st' & Hrun & Hpools & Hpool & Htables).
  exists st'. repeat split; try done.
  unfold aenter. rewrite connect_run. simpl. rewrite length_app. simpl. lia.
Qed.

(** X2.  [add_new_user] for a user id that has a row is refused.  The call
    raises [UniqueViolationError] and leaves the rows of every table as they
    were; so of two calls for the same user id, whatever the names, the
    second raises once the first has returned. *)
Theorem add_new_user_refuses_duplicate (user_id : Z) (username : option string)
    (full_name : string) (st : State) (d : nat) :
  free_in (server st) = Some d ->
  (Some user_id ∈ user_ids (tables (server st)) ->
   fst (add_new_user user_id username full_name st) = Raised UniqueViolationError /\
   users (tables (server (snd (add_new_user user_id username full_name st))))
     = users (tables (server st)) /\
   set_users (users (tables (server st))) (users_id_seq (tables (server st)))
     (tables (server (snd (add_new_user user_id username full_name st))))
     = tables (server st)) /\
  (forall username' full_name' st1,
     add_new_user user_id username full_name st = (Returned tt, st1) ->
     fst (add_new_user user_id username' full_name' st1)
       = Raised UniqueViolationError /\
     users (tables (server (snd (add_new_user user_id username' full_name' st1))))
       = users (tables (server st1))).
Proof.
  intros Hfree.
  assert (Hdup : forall n f st0 d0,
    free_in (server st0) = Some d0 ->
    Some user_id ∈ user_ids (tables (server st0)) ->
    add_new_user user_id n f st0 =
      (Raised UniqueViolationError,
       with_tables (set_users (users (tables (server st0)))
                      (users_id_seq (tables (server st0)) + 1)
                      (tables (server st0))) (established st0))).
  { intros n f st0 d0 Hfree0 Hin. unfold add_new_user.
    rewrite (update_run _ st0 d0 Hfree0), execute_run, established_tables.
    unfold sql_insert_user. rewrite bool_decide_eq_true_2; [done|].
    apply list_elem_of_fmap in Hin as (r & Hr & Hin).
    apply Exists_exists. eauto. }
  split.
  - intros Hin. rewrite (Hdup _ _ st d Hfree Hin). simpl. split; [done|].
    split; [done|]. by destruct (tables (server st)).
  - intros n f st1 Hrun.
    destruct (add_new_user_returned _ _ _ _ _ Hrun) as [[d1 Hfree1] Hin].
    by rewrite (Hdup n f st1 d1 Hfree1 Hin).
Qed.



Lemma get_user_data_run user_id st d :
  free_in (server st) = Some d ->
  get_user_data user_id st =
    (Returned (sql_select_user user_id (tables (server st))), established st).
Proof. intros H. unfold get_user_data. by rewrite (select_run _ st d H). Qed.









Lemma set_start_message_run m st d :
  free_in (server st) = Some d ->
  set_start_message m st =
    (Returned tt,
     with_tables (snd (sql_set_start_message m (tables (server st)))) (established st)).
Proof.
  intros H. unfold set_start_message.
  by rewrite (update_run _ st d H), execute_run, established_tables.
Qed.

(** X12.  [set_start_message] writes the greeting over every row of
    [admin_messages], its statement having no [WHERE], and adds none.  The
    call returns; afterwards every row holds the text given, the table has
    the rows, by id, it had, and every other table is as it was;
    [get_start_message] returns that text when the table has a row, and
    raises [IndexError] when it has none. *)
Theorem start_message_round_trip (start_message : string) (st : State) (d : nat) :
  free_in (server st) = Some d ->
  exists st1,
    set_start_message start_message st = (Returned tt, st1) /\
    Forall (fun r => am_start_message r = Some start_message)
      (admin_messages (tables (server st1))) /\
    am_id <$> admin_messages (tables (server st1))
      = am_id <$> admin_messages (tables (server st)) /\
    set_admin_messages (admin_messages (tables (server st))) (tables (server st1))
      = tables (server st) /\
    (admin_messages (tables (server st)) <> [] ->
     fst (get_start_message st1) = Returned (Some start_message)) /\
    (admin_messages (tables (server st)) = [] ->
     fst (get_start_message st1) = Raised IndexError).
Proof.
  intros Hfree. rewrite (set_start_message_run _ st d Hfree).
  eexists. split; [reflexivity|]. rewrite tables_with_tables. simpl.
  split; [|split; [|split]].
  - apply Forall_fmap, Forall_forall. by intros r _.
  - rewrite <- list_fmap_compose. by apply list_fmap_ext.
  - by destruct (tables (server st)).
  - unfold get_start_message, bind.
    rewrite (select_run _ _ d)
      by by rewrite free_in_with_tables, established_free_in.
    rewrite tables_with_tables. unfold sql_select_start_message. simpl.
    destruct (admin_messages (tables (server st))); simpl; by split.
Qed.

(** X16.  The time zone of a time stamp is dropped, not applied.  What
    follows the first [+] of the string never reaches [strptime]: two time
    stamps that differ only there are stored as the same time.  A string
    with no [+] goes to [strptime] whole, so an offset written with [-] is
    not stripped; and a record without the key, or with a value that is no
    [str], raises [AttributeError]. *)
Theorem timestamp_offset_dropped (s z z' : string) :
  occurs "+" s = false ->
  parse_timestamp (PyStr (s +:+ "+" +:+ z)) = or_raise ValueError (strptime s) /\
  parse_timestamp (PyStr (s +:+ "+" +:+ z))
    = parse_timestamp (PyStr (s +:+ "+" +:+ z')) /\
  parse_timestamp (PyStr s) = or_raise ValueError (strptime s) /\
  parse_timestamp PyNone = Err AttributeError /\
  (forall n, parse_timestamp (PyInt n) = Err AttributeError) /\
  (forall f, parse_timestamp (PyFloat f) = Err AttributeError).
Proof.
  intros Hs.
  assert (Hz : forall z, parse_timestamp (PyStr (s +:+ "+" +:+ z))
                         = or_raise ValueError (strptime s)).
  { intros z0. unfold parse_timestamp. simpl py_split.
    change (s +:+ "+" +:+ z0) with (s +:+ String "+" z0).
    by rewrite (split_app _ _ _ Hs). }
  split; [apply Hz|]. split; [by rewrite !Hz|]. split; [|done].
  unfold parse_timestamp. simpl py_split. by rewrite (split_no_sep _ _ Hs).
Qed.







(** X18.  What [get_button_stat] reports.  It returns the rows of the user,
    each once, the larger count first, and changes no table.  On a database
    whose [buttons_stat] was empty, after any calls of the methods, the
    report of a user has one row for each button [add_button_count] was
    called with for that user, no other row, and the count of a row is the
    number of those calls. *)
Theorem button_stat_report (cs : list method_call) (st : State) (d : nat)
    (user_id : Z) :
  orders_by_count_desc ->
  free_in (server st) = Some d ->
  exists rows st1,
    get_button_stat user_id (run_methods cs st) = (Returned rows, st1) /\
    tables (server st1) = tables (server (run_methods cs st)) /\
    rows ≡ₚ sql_select_button_stat user_id (tables (server (run_methods cs st))) /\
    Sorted count_desc rows /\
    (buttons_stat (tables (server st)) = [] ->
     (forall r, r ∈ rows ->
        exists b,
          bs_user_id r = Some user_id /\ bs_button_name r = Some b /\
          0 < presses user_id b cs /\
          bs_count r = Some (Z.of_nat (presses user_id b cs))) /\
     (forall b, 0 < presses user_id b cs ->
        exists r, filter (fun r => bs_button_name r = Some b) rows = [r])).
Proof.
  intros Hord Hfree.
  assert (Hfree' : free_in (server (run_methods cs st)) = Some d)
    by by rewrite run_methods_free_in.
  unfold get_button_stat. rewrite (select_run _ _ d Hfree').
  do 2 eexists. split; [reflexivity|]. split; [apply established_tables|].
  unfold sql_select_button_stat_ordered.
  destruct (Hord (sql_select_button_stat user_id
                    (tables (server (run_methods cs st))))) as [Hperm Hsorted].
  split; [exact Hperm|]. split; [exact Hsorted|]. intros Hnil.
  assert (Hcounts : forall b,
    button_counts user_id b (tables (server (run_methods cs st))) =
      match presses user_id b cs with
      | O => []
      | S n => [Some (Z.of_nat (S n))]
      end).
  { intros b. rewrite run_methods_as_calls, presses_increments.
    apply (button_counts_run_calls _ _ _ st d Hfree).
    unfold button_counts. by rewrite Hnil. }
  assert (Hfilled : Forall button_row_filled
                      (buttons_stat (tables (server (run_methods cs st))))).
  { apply (run_methods_keeps
             (carried (fun t => Forall button_row_filled (buttons_stat t)))
             sent_keeps_filled cs st).
    rewrite Hnil. constructor. }
  split.
  - intros r Hr. rewrite Hperm in Hr. unfold sql_select_button_stat in Hr.
    apply list_elem_of_filter in Hr as [Hu Hr].
    rewrite Forall_forall in Hfilled.
    destruct (Hfilled r Hr) as (_ & [b Hb] & _).
    exists b. split; [done|]. split; [done|].
    assert (Hc : bs_count r ∈ button_counts user_id b
                   (tables (server (run_methods cs st)))).
    { unfold button_counts. apply list_elem_of_fmap_2.
      apply list_elem_of_filter. by split. }
    rewrite Hcounts in Hc. destruct (presses user_id b cs) as [|n].
    + by apply not_elem_of_nil in Hc.
    + apply list_elem_of_singleton in Hc. split; [lia|done].
  - intros b Hb. specialize (Hcounts b).
    destruct (presses user_id b cs) as [|n]; [lia|].
    unfold button_counts in Hcounts.
    destruct (filter (same_button user_id b) _) as [|r [|r' l]] eqn:E;
      try discriminate Hcounts.
    exists r. apply Permutation_singleton_r.
    rewrite Hperm. unfold sql_select_button_stat.
    rewrite list_filter_filter, <- E.
    apply Permutation_refl'. apply list_filter_iff. intros x.
    unfold same_button. tauto.
Qed.

(** What [is_b24_contact_exist] needs is what [is_user_exist] tells. *)
Lemma is_b24_contact_exist_run user_id st d :
  free_in (server st) = Some d ->
  is_b24_contact_exist user_id st =
    (match sql_select_user user_id (tables (server st)) with
     | [] => Raised IndexError
     | r :: _ => Returned (py_bool_int (u_b24_id r))
     end, established st).
Proof.
  intros H. unfold is_b24_contact_exist, bind. rewrite (select_run _ st d H).
  unfold sql_select_b24_id, sql_select_user.
  by destruct (filter _ _).
Qed.

(** X19.  [is_user_exist] is the guard of [is_b24_contact_exist].  In every
    state one of two things holds: [is_user_exist] returns true, and then
    [is_b24_contact_exist] returns, with the truth value of the [b24_id] of
    the first row [get_user_data] returns; or [is_user_exist] returns false,
    and then [is_b24_contact_exist] raises [IndexError]. *)
Theorem b24_contact_guarded_by_user_exist (user_id : Z) (st : State) (d : nat) :
  free_in (server st) = Some d ->
  (fst (is_user_exist user_id st) = Returned true /\
   exists r rows,
     fst (get_user_data user_id st) = Returned (r :: rows) /\
     fst (is_b24_contact_exist user_id st) = Returned (py_bool_int (u_b24_id r))) \/
  (fst (is_user_exist user_id st) = Returned false /\
   fst (get_user_data user_id st) = Returned [] /\
   fst (is_b24_contact_exist user_id st) = Raised IndexError).
Proof.
  intros Hfree.
  rewrite (is_b24_contact_exist_run _ st d Hfree), (get_user_data_run _ st d Hfree).
  unfold is_user_exist, bind. rewrite (select_run _ st d Hfree). simpl.
  destruct (sql_select_user user_id (tables (server st))) as [|r rows].
  - right. by repeat split.
  - left. split; [done|]. by exists r, rows.
Qed.

#[local] Instance only_payments_preorder :
  PreOrder (fun t t' => set_payments (payments t) (payments_id_seq t) t' = t).
Proof.
  split.
  - intros t. by destruct t.
  - intros a b c Hab Hbc. destruct a, b, c. unfold set_payments in *.
    simpl in *. congruence.
Qed.

#[local] Instance only_deals_preorder :
  PreOrder (fun t t' => set_deals (deals t) (deals_id_seq t) t' = t).
Proof.
  split.
  - intros t. by destruct t.
  - intros a b c Hab Hbc. destruct a, b, c. unfold set_deals in *.
    simpl in *. congruence.
Qed.

#[local] Instance only_buttons_preorder :
  PreOrder (fun t t' =>
    set_buttons_stat (buttons_stat t) (buttons_stat_id_seq t) t' = t).
Proof.
  split.
  - intros t. by destruct t.
  - intros a b c Hab Hbc. destruct a, b, c. unfold set_buttons_stat in *.
    simpl in *. congruence.
Qed.

#[local] Instance only_products_preorder :
  PreOrder (fun t t' => set_products (products t) t' = t).
Proof.
  split.
  - intros t. by destruct t.
  - intros a b c Hab Hbc. destruct a, b, c. unfold set_products in *.
    simpl in *. congruence.
Qed.

#[local] Instance only_users_preorder :
  PreOrder (fun t t' => set_users (users t) (users_id_seq t) t' = t).
Proof.
  split.
  - intros t. by destruct t.
  - intros a b c Hab Hbc. destruct a, b, c. unfold set_users in *.
    simpl in *. congruence.
Qed.

(** X20.  A method that writes, writes one table.  Whatever the arguments
    and the state, and however the call ends, after [add_payment] every table
    but [payments] is as it was, after [add_new_deal] every table but
    [deals], after [add_button_count] every table but [buttons_stat], and
    after [update_table_products] every table but [products]: recording a
    payment does not mark a deal paid, and no write needs or touches a
    [users] row. *)
Theorem writes_touch_one_table (st : State) :
  (forall user_id payment_data,
     set_payments (payments (tables (server st)))
       (payments_id_seq (tables (server st)))
       (tables (server (snd (add_payment user_id payment_data st))))
     = tables (server st)) /\
  (forall user_id deal_id product_id opportunity,
     set_deals (deals (tables (server st))) (deals_id_seq (tables (server st)))
       (tables (server (snd (add_new_deal user_id deal_id product_id opportunity st))))
     = tables (server st)) /\
  (forall user_id button_name,
     set_buttons_stat (buttons_stat (tables (server st)))
       (buttons_stat_id_seq (tables (server st)))
       (tables (server (snd (add_button_count user_id button_name st))))
     = tables (server st)) /\
  (forall products_list,
     set_products (products (tables (server st)))
       (tables (server (snd (update_table_products products_list st))))
     = tables (server st)).
Proof.
  split; [|split; [|split]].
  - intros u pd.
    apply (keeps_apply
             (on_tables (fun t t' =>
                set_payments (payments t) (payments_id_seq t) t' = t))).
    unfold add_payment.
    apply keeps_bind; [apply _|apply keeps_lift; apply _|intros p].
    apply keeps_bind; [apply _|apply keeps_lift; apply _|intros k].
    apply keeps_update_on; [apply _|]. intros t. by destruct t.
  - intros u k p o.
    apply (keeps_apply
             (on_tables (fun t t' => set_deals (deals t) (deals_id_seq t) t' = t))).
    unfold add_new_deal.
    apply keeps_bind; [apply _| |intros time_now].
    + intros st'. unfold on_tables. simpl. by destruct (tables (server st')).
    + apply keeps_update_on; [apply _|]. intros t. unfold sql_insert_deal.
      case_match; by destruct t.
  - intros u b.
    apply (keeps_apply
             (on_tables (fun t t' =>
                set_buttons_stat (buttons_stat t) (buttons_stat_id_seq t) t' = t))).
    unfold add_button_count.
    apply keeps_update_on; [apply _|]. intros t. unfold sql_upsert_button.
    case_match; by destruct t.
  - intros l.
    apply (keeps_apply (on_tables (fun t t' => set_products (products t) t' = t))).
    unfold update_table_products.
    apply keeps_bind; [apply _| |intros _].
    + apply keeps_update_on; [apply _|]. intros t. by destruct t.
    + induction l as [|product l IH]; simpl.
      * apply keeps_ret. apply _.
      * apply keeps_bind; [apply _| |by intros _].
        unfold insert_product.
        apply keeps_bind; [apply _|apply keeps_lift; apply _|intros active_from].
        apply keeps_bind; [apply _|apply keeps_lift; apply _|intros active_to].
        apply keeps_bind; [apply _|apply keeps_lift; apply _|intros price].
        apply keeps_update_on; [apply _|]. intros t.
        unfold sql_insert_product. repeat case_match; by destruct t.
Qed.

(** X21.  The methods that write [users] write nothing else.  Whatever the
    arguments and the state, and however the call ends, after
    [add_new_user], [set_iml], [set_b24_id] and [set_lead_id] every table but
    [users] is as it was. *)
Theorem users_writes_touch_users_only (st : State) :
  (forall user_id username full_name,
     set_users (users (tables (server st))) (users_id_seq (tables (server st)))
       (tables (server (snd (add_new_user user_id username full_name st))))
     = tables (server st)) /\
  (forall user_id iml,
     set_users (users (tables (server st))) (users_id_seq (tables (server st)))
       (tables (server (snd (set_iml user_id iml st))))
     = tables (server st)) /\
  (forall user_id b24_id,
     set_users (users (tables (server st))) (users_id_seq (tables (server st)))
       (tables (server (snd (set_b24_id user_id b24_id st))))
     = tables (server st)) /\
  (forall user_id lead_id,
     set_users (users (tables (server st))) (users_id_seq (tables (server st)))
       (tables (server (snd (set_lead_id user_id lead_id st))))
     = tables (server st)).
Proof.
  repeat split; intros;
    apply (keeps_apply
             (on_tables (fun t t' => set_users (users t) (users_id_seq t) t' = t)));
    apply keeps_update_on; try apply _; intros t;
    unfold sql_insert_user; try case_match; by destruct t.
Qed.

End Methods.

(** * Runs on concrete inputs *)

Example e2e :
  run_calls strptime_iso float_of_decimal
    [Call_add_new_user 42 (Some "alice") "Alice A";
     Call_add_new_deal 42 900 7 f_150] st_fresh = st_deal.
Proof. vm_compute. reflexivity. Qed.

Example e2e_unpaid :
  fst (get_user_deal_by_product_id 42 7 st_deal) =
    Returned [mk_deal 1 (Some 42%Z) (Some 900%Z) (Some 7%Z) (Some r_150)
                (Some false) (Some noon)].
Proof. reflexivity. Qed.

Example e2e_paid :
  fst (get_user_deal_by_product_id 42 7 (snd (set_paid_deal 900 st_deal)))
    = Returned [].
Proof. reflexivity. Qed.

Example split_payload : split ":" "7:900" = ["7"; "900"].
Proof. reflexivity. Qed.

Example split_none : split ":" "7900" = ["7900"].
Proof. reflexivity. Qed.

Example split_empty : split ":" "" = [""] /\ split ":" ":" = [""; ""].
Proof. split; reflexivity. Qed.

Example py_int_ex :
  py_int " +1_000 " = Some 1000%Z /\ py_int "-7" = Some (-7)%Z /\
  py_int "007" = Some 7%Z /\ py_int "" = None /\ py_int "1__0" = None /\
  py_int "12a" = None /\ py_int "_1" = None /\ py_int "1_" = None /\
  py_int "- 1" = None /\ py_int "+-1" = None.
Proof. repeat split; reflexivity. Qed.

Example py_str_ex : py_str 900 = "900" /\ py_str (-7) = "-7" /\ py_str 0 = "0".
Proof. repeat split; reflexivity. Qed.

Example float_of_decimal_ex :
  float_of_decimal "150.00" = Some f_150 /\ float_of_decimal "19.99" = Some f_19_99.
Proof. split; vm_compute; reflexivity. Qed.

Example real_exact : float4_decode <$> float4_encode f_150 = Ok f_150.
Proof. vm_compute. reflexivity. Qed.

Example real_rounds : float4_decode <$> float4_encode f_19_99 = Ok f_19_99_read.
Proof. vm_compute. reflexivity. Qed.

Example add_payment_ex :
  fst (add_payment 42 (payment_ex "7:900") st_fresh) = Returned tt /\
  add_payment 42 (payment_ex "7900") st_fresh = (Raised IndexError, st_fresh) /\
  add_payment 42 (payment_ex "seven:900") st_fresh = (Raised ValueError, st_fresh) /\
  add_payment 42 (payment_ex "7:") st_fresh = (Raised ValueError, st_fresh) /\
  add_payment 42 (payment_ex "7:900") st_exhausted
    = (Blocked, established st_exhausted).
Proof. repeat split; reflexivity. Qed.

Example interleaved_counts :
  button_counts 42 "start"
    (tables (server (run_calls strptime_iso float_of_decimal
       [Call_add_button_count 42 "start"; Call_add_button_count 7 "start";
        Call_add_new_user 42 None "Alice A"; Call_add_button_count 42 "help";
        Call_add_button_count 42 "start"] st_fresh)))
    = [Some 2%Z].
Proof. vm_compute. reflexivity. Qed.

(** What the library does for a caller that does pass a timeout. *)
Example acquire_with_timeout :
  fst (pool_acquire (Some 30%nat) (established st_exhausted)) = Raised TimeoutError /\
  fst (pool_acquire None (established st_exhausted)) = Blocked.
Proof. split; reflexivity. Qed.

(** [connect] has no guard of its own: entering the context manager after a
    first use opens a second pool. *)
Example aenter_opens_another_pool :
  length (pools (server (snd (aenter (snd (get_products st_fresh)))))) = 2%nat.
Proof. reflexivity. Qed.

(** ** The theorems at concrete inputs *)



Lemma unpaid_deal_then_paid_witness :
  exists rows st1,
    get_user_deal_by_product_id 42 7 st_deal = (Returned rows, st1) /\
    (forall r, r ∈ rows -> d_paid r = Some false).
Proof.
  destruct (unpaid_deal_then_paid 42 7 st_deal 0 eq_refl)
    as (rows & st1 & H1 & H2 & _).
  exists rows, st1. split; assumption.
Defined.




Lemma acquire_is_unbounded_witness :
  fst (select sql_select_products st_exhausted) = Blocked /\
  fst (update sql_truncate_products st_exhausted) = Blocked.
Proof.
  destruct (acquire_is_unbounded sql_select_products sql_truncate_products
              st_exhausted) as [H _].
  exact (H eq_refl).
Defined.

Lemma user_exists_after_insert_witness :
  fst (is_user_exist 42
         (run_calls strptime_iso float_of_decimal
            [Call_add_button_count 42 "start"; Call_add_new_user 7 None "Bob"]
            st_fresh)) = Returned false.
Proof.
  refine (proj1 (user_exists_after_insert strptime_iso float_of_decimal
                   42 (Some "alice") "Alice A" st_fresh 0
                   [Call_add_button_count 42 "start"; Call_add_new_user 7 None "Bob"]
                   [Call_set_b24_id 42 5] eq_refl _ _)).
  - simpl. apply not_elem_of_nil.
  - repeat constructor; simpl; lia.
Defined.

Lemma b24_contact_needs_user_witness :
  is_b24_contact_exist 42 st_fresh = (Raised IndexError, established st_fresh) /\
  is_user_exist 42 st_fresh = (Returned false, established st_fresh).
Proof.
  apply (b24_contact_needs_user 42 st_fresh 0 eq_refl).
  simpl. intros r Hr. by apply not_elem_of_nil in Hr.
Defined.

(** ** The properties of the methods at concrete inputs *)

#[local] Instance count_desc_total : Total count_desc.
Proof.
  intros r r'. unfold count_desc.
  destruct (bs_count r), (bs_count r'); try tauto. lia.
Qed.

(** The merge sort is one of the orders [ORDER BY count DESC] allows. *)
Lemma sort_by_count_desc_orders : orders_by_count_desc sort_by_count_desc.
Proof.
  intros l. split.
  - apply merge_sort_Permutation.
  - apply (Sorted_merge_sort count_desc).
Qed.

Lemma connect_opens_a_pool_each_time_witness :
  exists st',
    times 2 connect st_deal = (Returned tt, st') /\
    pools (server st') =
      [mk_pool_config dsn_ex 10 500 500 30; mk_pool_config dsn_ex 10 500 500 30;
       mk_pool_config dsn_ex 10 500 500 30] /\
    pool (self st') = Some 2.
Proof.
  destruct (connect_opens_a_pool_each_time 2 st_deal) as (st' & H1 & H2 & H3 & _).
  - unfold valid_bounds. simpl. lia.
  - exists st'. split; [exact H1|]. split; [exact H2|exact H3].
Defined.

Lemma add_new_user_refuses_duplicate_witness :
  fst (add_new_user 42 (Some "al") "Al" st_deal) = Raised UniqueViolationError.
Proof.
  refine (proj1 (proj1 (add_new_user_refuses_duplicate 42 (Some "al") "Al"
                          st_deal 0 eq_refl) _)).
  unfold user_ids. simpl. left.
Defined.

Lemma users_rows_kept_witness :
  exists r',
    users (tables (server
      (run_methods strptime_iso float_of_decimal sort_by_count_desc
         [Method (Call_set_b24_id 42 5); Call_get_button_stat 42;
          Method (Call_add_new_user 7 None "Bob")] st_deal))) !! 0%nat = Some r' /\
    u_id r' = 1%Z /\ u_user_id r' = Some 42%Z /\
    u_username r' = Some "alice" /\ u_full_name r' = Some "Alice A".
Proof.
  exact (users_rows_kept strptime_iso float_of_decimal sort_by_count_desc
           [Method (Call_set_b24_id 42 5); Call_get_button_stat 42;
            Method (Call_add_new_user 7 None "Bob")] st_deal 0
           (mk_user 1 (Some 42%Z) (Some "alice") (Some "Alice A") None None None)
           eq_refl).
Defined.

Lemma one_users_row_per_user_witness :
  exists rows,
    fst (get_user_data 42
           (run_methods strptime_iso float_of_decimal sort_by_count_desc
              [Method (Call_add_new_user 42 None "Alice");
               Method (Call_add_new_user 42 (Some "alice") "Alice A")] st_fresh))
      = Returned rows /\
    length rows <= 1.
Proof.
  apply (one_users_row_per_user strptime_iso float_of_decimal sort_by_count_desc
           _ st_fresh 0 42 eq_refl).
  intros u. simpl. lia.
Defined.



Lemma b24_contact_guarded_by_user_exist_witness :
  fst (is_user_exist 42 st_deal) = Returned true /\
  fst (is_b24_contact_exist 42 st_deal) = Returned false /\
  fst (is_user_exist 7 st_deal) = Returned false /\
  fst (is_b24_contact_exist 7 st_deal) = Raised IndexError.
Proof.
  destruct (b24_contact_guarded_by_user_exist 42 st_deal 0 eq_refl)
    as [(H1 & r & rows & Hr & H2)|(H1 & _)]; [|discriminate H1].
  injection Hr as <- _.
  destruct (b24_contact_guarded_by_user_exist 7 st_deal 0 eq_refl)
    as [(H3 & _)|(H3 & _ & H4)]; [discriminate H3|].
  repeat split; assumption.
Defined.


Lemma deals_never_lost_witness :
  exists r',
    deals (tables (server
      (run_methods strptime_iso float_of_decimal sort_by_count_desc
         [Method (Call_set_paid_deal 900); Method (Call_add_new_deal 42 901 7 f_150);
          Method (Call_update_table_products [])] st_deal))) !! 0%nat = Some r' /\
    d_id r' = 1%Z /\ d_user_id r' = Some 42%Z /\ d_deal_id r' = Some 900%Z /\
    d_product_id r' = Some 7%Z /\ d_opportunity r' = Some r_150 /\
    d_create_time r' = Some noon /\
    (d_paid r' = Some false \/ d_paid r' = Some true) /\
    (Some false = Some true -> d_paid r' = Some true).
Proof.
  exact (deals_never_lost strptime_iso float_of_decimal sort_by_count_desc
           [Method (Call_set_paid_deal 900); Method (Call_add_new_deal 42 901 7 f_150);
            Method (Call_update_table_products [])] st_deal 0
           (mk_deal 1 (Some 42%Z) (Some 900%Z) (Some 7%Z) (Some r_150) (Some false)
              (Some noon))
           eq_refl).
Defined.


Lemma start_message_never_created_witness :
  fst (get_start_message
         (run_methods strptime_iso float_of_decimal sort_by_count_desc
            [Method Call_create_table_admin_messages;
             Method (Call_set_start_message "Hello")] st_fresh))
    = Raised IndexError.
Proof.
  exact (proj2 (start_message_never_created strptime_iso float_of_decimal
                  sort_by_count_desc
                  [Method Call_create_table_admin_messages;
                   Method (Call_set_start_message "Hello")] st_fresh 0 eq_refl)
           eq_refl).
Defined.

Lemma start_message_round_trip_witness :
  exists st1,
    set_start_message "Hello"
      (with_tables (set_admin_messages [mk_admin_message 1 None] empty_tables)
         st_fresh) = (Returned tt, st1) /\
    fst (get_start_message st1) = Returned (Some "Hello").
Proof.
  destruct (start_message_round_trip "Hello"
              (with_tables (set_admin_messages [mk_admin_message 1 None] empty_tables)
                 st_fresh) 0 eq_refl) as (st1 & H1 & _ & _ & _ & H2 & _).
  exists st1. split; [exact H1|]. apply H2. discriminate.
Defined.

Lemma one_products_row_per_id_witness :
  exists rows,
    fst (get_product_by_id 1
           (snd (update_table_products strptime_iso float_of_decimal
                   [product_ex 1 "Course" "150.00"; product_ex 1 "Workshop" "19.99"]
                   st_fresh))) = Returned rows /\
    length rows <= 1.
Proof.
  exact (proj2 (one_products_row_per_id strptime_iso float_of_decimal
                  sort_by_count_desc [] st_fresh 0 1 eq_refl)
           [product_ex 1 "Course" "150.00"; product_ex 1 "Workshop" "19.99"]).
Defined.




Lemma timestamp_offset_dropped_witness :
  parse_timestamp strptime_iso (PyStr "2024-01-01T00:00:00+03:00")
    = Ok (mk_datetime 2024 1 1 0 0 0 0) /\
  parse_timestamp strptime_iso (PyStr "2024-01-01T00:00:00+03:00")
    = parse_timestamp strptime_iso (PyStr "2024-01-01T00:00:00+00:00").
Proof.
  destruct (timestamp_offset_dropped strptime_iso "2024-01-01T00:00:00"
              "03:00" "00:00" eq_refl) as (H1 & H2 & _).
  split; [exact H1|exact H2].
Defined.

Lemma button_counts_never_decrease_witness :
  exists r',
    buttons_stat (tables (server
      (run_methods strptime_iso float_of_decimal sort_by_count_desc
         [Method (Call_add_button_count 42 "start");
          Method (Call_add_button_count 42 "help")]
         (snd (add_button_count 42 "start" st_fresh))))) !! 0%nat = Some r' /\
    bs_id r' = 1%Z /\ bs_user_id r' = Some 42%Z /\
    bs_button_name r' = Some "start" /\
    (forall c, Some 1%Z = Some c ->
       exists c', bs_count r' = Some c' /\ (c <= c')%Z).
Proof.
  exact (proj1 (button_counts_never_decrease strptime_iso float_of_decimal
                  sort_by_count_desc
                  [Method (Call_add_button_count 42 "start");
                   Method (Call_add_button_count 42 "help")]
                  (snd (add_button_count 42 "start" st_fresh)))
           0%nat (mk_button_stat 1 (Some 42%Z) (Some "start") (Some 1%Z)) eq_refl).
Defined.

Lemma button_stat_report_witness :
  exists rows st1,
    get_button_stat sort_by_count_desc 42
      (run_methods strptime_iso float_of_decimal sort_by_count_desc
         [Method (Call_add_button_count 42 "help");
          Method (Call_add_button_count 42 "start");
          Method (Call_add_button_count 7 "start");
          Method (Call_add_button_count 42 "start")] st_fresh)
      = (Returned rows, st1) /\
    Sorted count_desc rows /\
    (forall r, r ∈ rows ->
       exists b,
         bs_user_id r = Some 42%Z /\ bs_button_name r = Some b /\
         bs_count r =
           Some (Z.of_nat (presses 42 b
             [Method (Call_add_button_count 42 "help");
              Method (Call_add_button_count 42 "start");
              Method (Call_add_button_count 7 "start");
              Method (Call_add_button_count 42 "start")]))).
Proof.
  destruct (button_stat_report strptime_iso float_of_decimal sort_by_count_desc
              [Method (Call_add_button_count 42 "help");
               Method (Call_add_button_count 42 "start");
               Method (Call_add_button_count 7 "start");
               Method (Call_add_button_count 42 "start")] st_fresh 0 42
              sort_by_count_desc_orders eq_refl)
    as (rows & st1 & H1 & _ & _ & H2 & H3).
  exists rows, st1. split; [exact H1|]. split; [exact H2|].
  intros r Hr. destruct (proj1 (H3 eq_refl) r Hr) as (b & Hu & Hb & _ & Hc).
  exists b. repeat split; assumption.
Defined.

(** The report of the run above: the button pressed twice comes first. *)
Example report_of_a_run :
  fst (get_button_stat sort_by_count_desc 42
         (run_methods strptime_iso float_of_decimal sort_by_count_desc
            [Method (Call_add_button_count 42 "help");
             Method (Call_add_button_count 42 "start");
             Method (Call_add_button_count 7 "start");
             Method (Call_add_button_count 42 "start")] st_fresh))
    = Returned [mk_button_stat 2 (Some 42%Z) (Some "start") (Some 2%Z);
                mk_button_stat 1 (Some 42%Z) (Some "help") (Some 1%Z)].
Proof. vm_compute. reflexivity. Qed.

(** ** Where the specification and the code part *)


(** C7 as the specification states it fails on a pool that stays exhausted:
    with the default [timeout] of 30 the call does not raise [TimeoutError],
    it never resumes. *)
Lemma exhausted_pool_blocks :
  timeout (self st_exhausted) = 30%Z /\
  free_in (server st_exhausted) = None /\
  fst (get_products st_exhausted) = Blocked /\
  fst (set_paid_deal 900 st_exhausted) = Blocked /\
  fst (get_products st_exhausted) <> Raised TimeoutError.
Proof. repeat split; try reflexivity. discriminate. Qed.
